(** * Patient-vitals pipeline: threshold detector and alert manager

    A shallow embedding of
      - [config/settings.py]                      (VITAL_RANGES, ALERT_LEVELS)
      - [src/anomaly_detection/detector.py]       (SimpleAnomalyDetector)
      - [src/alerting/alert_manager.py]           (PatientAlertManager)
    together with the properties established about them.

    Python values are embedded as a small tagged universe ([pyval]); the
    exceptions the code can raise are explicit ([exn], [result]); the list
    [anomalies] that [check_vital_thresholds] mutates is threaded through
    a state-and-exception monad ([det]) in which the list survives a raised
    exception, as a mutated Python list does; the dictionary
    [alert_history] of the manager is a [gmap] from patient id to the list
    of stored alerts. *)

From Stdlib Require Import ZArith QArith Lqa String Ascii List Permutation.
From stdpp Require Import base gmap strings list sorting.

#[local] Close Scope Q_scope.
#[local] Open Scope string_scope.
#[local] Open Scope Z_scope.

(** ** Python values *)

(** A Python [float] is NaN, an infinity, or a finite binary fraction.  The
    code only compares floats and never computes with them, and Python
    compares an [int] with a finite [float] exactly, so a finite float is
    carried as the rational it denotes. *)
Inductive pyfloat : Type :=
  | FFinite (q : Q)
  | FPosInf
  | FNegInf
  | FNaN.

(** Numbers that occur as configured thresholds. *)
Inductive pynum : Type :=
  | NInt (z : Z)
  | NFloat (f : pyfloat).

(** What [json.loads] can put under a key of a reading. *)
#[local] Unset Elimination Schemes.
Inductive pyval : Type :=
  | PyNone
  | PyBool (b : bool)
  | PyInt (z : Z)
  | PyFloat (f : pyfloat)
  | PyStr (s : string)
  | PyList (l : list pyval)
  | PyDict (d : list (string * pyval)).
#[local] Set Elimination Schemes.

Inductive exn : Type :=
  | TypeError
  | AttributeError
  | ValueError
  | IndexError.

Inductive result (A : Type) : Type :=
  | Ok (a : A)
  | Raise (e : exn).
Arguments Ok {A} a.
Arguments Raise {A} e.

#[global] Instance result_ret : MRet result := λ A a, Ok a.
#[global] Instance result_bind : MBind result :=
  λ A B f m, match m with Ok a => f a | Raise e => Raise e end.

(** [bool(v)]: the test behind [if v:]. *)
Definition truthy (v : pyval) : bool :=
  match v with
  | PyNone => false
  | PyBool b => b
  | PyInt z => negb (z =? 0)
  | PyFloat (FFinite q) => negb (Qeq_bool q 0)
  | PyFloat _ => true
  | PyStr s => negb (String.eqb s "")
  | PyList l => match l with [] => false | _ => true end
  | PyDict d => match d with [] => false | _ => true end
  end.

(** The numeric reading of a value: [bool] is a subclass of [int]. *)
Definition as_num (v : pyval) : option pynum :=
  match v with
  | PyBool b => Some (NInt (Z.b2z b))
  | PyInt z => Some (NInt z)
  | PyFloat f => Some (NFloat f)
  | _ => None
  end.

Definition num_val (n : pynum) : pyval :=
  match n with
  | NInt z => PyInt z
  | NFloat f => PyFloat f
  end.

Definition float_of_num (n : pynum) : pyfloat :=
  match n with
  | NInt z => FFinite (inject_Z z)
  | NFloat f => f
  end.

Definition Qlt_bool (x y : Q) : bool :=
  (Qnum x * Zpos (Qden y) <? Qnum y * Zpos (Qden x)).

(** [a < b] on floats: every comparison with NaN is false. *)
Definition float_lt (a b : pyfloat) : bool :=
  match a, b with
  | FNaN, _ | _, FNaN => false
  | FFinite x, FFinite y => Qlt_bool x y
  | FFinite _, FPosInf => true
  | FFinite _, FNegInf => false
  | FNegInf, FNegInf => false
  | FNegInf, _ => true
  | FPosInf, _ => false
  end.

Definition float_eq (a b : pyfloat) : bool :=
  match a, b with
  | FFinite x, FFinite y => Qeq_bool x y
  | FPosInf, FPosInf => true
  | FNegInf, FNegInf => true
  | _, _ => false
  end.

Definition num_lt (a b : pynum) : bool := float_lt (float_of_num a) (float_of_num b).
Definition num_eq (a b : pynum) : bool := float_eq (float_of_num a) (float_of_num b).
Definition num_le (a b : pynum) : bool := num_lt a b || num_eq a b.

(** [v < t] and [v > t] for a threshold [t]: a [TypeError] unless [v] is a
    number ([None], [str], [list] and [dict] do not order against [int] or
    [float]). *)
Definition py_lt (v : pyval) (t : pynum) : result bool :=
  match as_num v with
  | Some n => Ok (num_lt n t)
  | None => Raise TypeError
  end.

Definition py_gt (v : pyval) (t : pynum) : result bool :=
  match as_num v with
  | Some n => Ok (num_lt t n)
  | None => Raise TypeError
  end.

(** ** Strings: [str.split], [int(str)], [str.upper]

    Strings are ASCII text; a byte above 127 is neither a digit nor a
    space.  The interpreter's [int] also strips Unicode white space and
    reads Unicode decimal digits, and its [str.upper] also maps letters
    beyond a-z: strings with such characters are outside this embedding. *)

Fixpoint str_split (sep : ascii) (s : string) : list string :=
  match s with
  | EmptyString => [EmptyString]
  | String c rest =>
      if Ascii.eqb c sep then EmptyString :: str_split sep rest
      else match str_split sep rest with
           | p :: ps => String c p :: ps
           | [] => [String c EmptyString]
           end
  end.

(** The white space [int] skips around the digits of an ASCII string:
    TAB, LF, VT, FF, CR and SPACE. *)
Definition is_space (c : ascii) : bool :=
  let n := nat_of_ascii c in
  ((9 <=? n)%nat && (n <=? 13)%nat) || (n =? 32)%nat.

Definition digit_val (c : ascii) : option Z :=
  let n := nat_of_ascii c in
  if ((48 <=? n)%nat && (n <=? 57)%nat) then Some (Z.of_nat (n - 48)) else None.

Fixpoint lstrip (s : string) : string :=
  match s with
  | String c rest => if is_space c then lstrip rest else s
  | EmptyString => EmptyString
  end.

Fixpoint str_rev_onto (s acc : string) : string :=
  match s with
  | EmptyString => acc
  | String c rest => str_rev_onto rest (String c acc)
  end.

Definition str_rev (s : string) : string := str_rev_onto s EmptyString.

Definition strip (s : string) : string := str_rev (lstrip (str_rev (lstrip s))).

(** Decimal digits with single underscores allowed between two digits. *)
Fixpoint digits_from (s : string) (after_digit : bool) (acc : Z) : option Z :=
  match s with
  | EmptyString => if after_digit then Some acc else None
  | String c rest =>
      match digit_val c with
      | Some d => digits_from rest true (10 * acc + d)
      | None =>
          if Ascii.eqb c "_" && after_digit then digits_from rest false acc
          else None
      end
  end.

(** [int(s)] for a string [s], base 10: surrounding white space, one
    optional sign, digits.  Anything else is a [ValueError].  (Interpreters
    that cap the number of digits raise [ValueError] beyond the cap as
    well; the caller catches it like any other.) *)
Definition py_int (s : string) : result Z :=
  let body := strip s in
  let parsed :=
    match body with
    | String "+" rest => digits_from rest false 0
    | String "-" rest => Z.opp <$> digits_from rest false 0
    | _ => digits_from body false 0
    end in
  match parsed with
  | Some z => Ok z
  | None => Raise ValueError
  end.

Definition upper_ascii (c : ascii) : ascii :=
  let n := nat_of_ascii c in
  if ((97 <=? n)%nat && (n <=? 122)%nat) then ascii_of_nat (n - 32) else c.

Fixpoint upper (s : string) : string :=
  match s with
  | EmptyString => EmptyString
  | String c rest => String (upper_ascii c) (upper rest)
  end.

(** ** Configuration ([config/settings.py]) *)

Record VitalRange : Type := mkRange {
  r_min : pynum;
  r_max : pynum;
  critical_min : pynum;
  critical_max : pynum
}.

Record VitalRanges : Type := mkRanges {
  heart_rate : VitalRange;
  temperature : VitalRange;
  oxygen_saturation : VitalRange;
  respiratory_rate : VitalRange;
  blood_pressure_systolic : VitalRange;
  blood_pressure_diastolic : VitalRange
}.

Definition fl (q : Q) : pynum := NFloat (FFinite q).

Definition VITAL_RANGES : VitalRanges := {|
  heart_rate := mkRange (NInt 60) (NInt 100) (NInt 40) (NInt 130);
  temperature := mkRange (fl 36) (fl (75 # 2)) (fl 35) (fl (77 # 2));
  oxygen_saturation := mkRange (NInt 95) (NInt 100) (NInt 90) (NInt 100);
  respiratory_rate := mkRange (NInt 12) (NInt 20) (NInt 10) (NInt 25);
  blood_pressure_systolic := mkRange (NInt 90) (NInt 120) (NInt 80) (NInt 180);
  blood_pressure_diastolic := mkRange (NInt 60) (NInt 80) (NInt 50) (NInt 110)
|}.

(** [ALERT_LEVELS.get(name, 1)]. *)
Definition ALERT_LEVELS_get (name : string) : Z :=
  if String.eqb name "LOW" then 1
  else if String.eqb name "MEDIUM" then 2
  else if String.eqb name "HIGH" then 3
  else if String.eqb name "CRITICAL" then 4
  else 1.

(** ** The detector ([SimpleAnomalyDetector]) *)

(** One appended anomaly dictionary:
    [{"vital", "value", "reason", "threshold", "severity"}]. *)
Record Finding : Type := mkFinding {
  vital : string;
  value : pyval;
  reason : string;
  threshold : pynum;
  severity : string
}.

(** A reading: the dictionary [patient_data]. *)
Abbreviation Reading := (gmap string pyval).

(** [patient_data.get(key)]: [None] when the key is absent. *)
Definition dict_get (patient_data : Reading) (key : string) : pyval :=
  default PyNone (patient_data !! key).

(** Statements of [check_vital_thresholds] run against the list
    [anomalies]; an exception leaves the list as it was when raised. *)
Definition det (A : Type) : Type := list Finding → list Finding * result A.

#[global] Instance det_ret : MRet det := λ A a anomalies, (anomalies, Ok a).
#[global] Instance det_bind : MBind det :=
  λ A B f m anomalies,
    match m anomalies with
    | (anomalies', Ok a) => f a anomalies'
    | (anomalies', Raise e) => (anomalies', Raise e)
    end.

(** [anomalies.append(f)] *)
Definition append (f : Finding) : det unit :=
  λ anomalies, ((anomalies ++ [f])%list, Ok tt).

(** An expression that may raise, evaluated inside a statement. *)
Definition eval {A} (r : result A) : det A :=
  λ anomalies, (anomalies, r).

Definition pass : det unit := mret ().

(** [try: body except (ValueError, IndexError): pass] *)
Definition try_except_value_index (body : det unit) : det unit :=
  λ anomalies,
    match body anomalies with
    | (anomalies', Raise ValueError) => (anomalies', Ok tt)
    | (anomalies', Raise IndexError) => (anomalies', Ok tt)
    | other => other
    end.

(** [bp_parts[i]] *)
Definition getitem (parts : list string) (i : nat) : result string :=
  match parts !! i with
  | Some p => Ok p
  | None => Raise IndexError
  end.

(** [v.split("/")]: only a [str] has the method. *)
Definition split_slash (v : pyval) : result (list string) :=
  match v with
  | PyStr s => Ok (str_split "/" s)
  | _ => Raise AttributeError
  end.

(** The normal-band [if]/[elif] pair followed by the critical-band
    [if]/[elif] pair, as written for heart rate (detector.py 29-62),
    temperature (68-101), respiratory rate (130-163), systolic (175-208)
    and diastolic (212-245). *)
Definition check_band (name : string) (v : pyval) (range : VitalRange) : det unit :=
  below ← eval (py_lt v (r_min range));
  (if below : bool then
     append (mkFinding name v "below normal" (r_min range) "medium")
   else
     above ← eval (py_gt v (r_max range));
     if above : bool then
       append (mkFinding name v "above normal" (r_max range) "medium")
     else pass);;
  (* Check critical thresholds *)
  critically_low ← eval (py_lt v (critical_min range));
  if critically_low : bool then
    append (mkFinding name v "critically low" (critical_min range) "high")
  else
    critically_high ← eval (py_gt v (critical_max range));
    if critically_high : bool then
      append (mkFinding name v "critically high" (critical_max range) "high")
    else pass.

(** The two lone [if]s written for oxygen saturation (detector.py 107-124):
    no [elif] branch for the upper bounds. *)
Definition check_band_low (name : string) (v : pyval) (range : VitalRange) : det unit :=
  below ← eval (py_lt v (r_min range));
  (if below : bool then
     append (mkFinding name v "below normal" (r_min range) "medium")
   else pass);;
  (* Check critical threshold *)
  critically_low ← eval (py_lt v (critical_min range));
  if critically_low : bool then
    append (mkFinding name v "critically low" (critical_min range) "high")
  else pass.

(** detector.py 169-171: [bp_parts = bp.split("/")],
    [systolic = int(bp_parts[0])], [diastolic = int(bp_parts[1])]. *)
Definition parse_blood_pressure (bp : pyval) : result (Z * Z) :=
  bp_parts ← split_slash bp;
  systolic ← getitem bp_parts 0 ≫= py_int;
  diastolic ← getitem bp_parts 1 ≫= py_int;
  mret (systolic, diastolic).

(** detector.py 166-260 *)
Definition check_blood_pressure (vital_ranges : VitalRanges) (patient_data : Reading)
  : det unit :=
  match patient_data !! "blood_pressure" with
  | None => pass
  | Some bp =>
      try_except_value_index (
        '(systolic, diastolic) ← eval (parse_blood_pressure bp);
        check_band "blood_pressure_systolic" (PyInt systolic)
          (blood_pressure_systolic vital_ranges);;
        check_band "blood_pressure_diastolic" (PyInt diastolic)
          (blood_pressure_diastolic vital_ranges);;
        (* Check pulse pressure *)
        let pulse_pressure := systolic - diastolic in
        if 50 <? pulse_pressure then
          append (mkFinding "pulse_pressure" (PyInt pulse_pressure)
                    "abnormal systolic-diastolic difference" (NInt 50) "medium")
        else pass)
  end.

(** detector.py 18-262; [vital_ranges] is [self.vital_ranges]. *)
Definition check_vital_thresholds_stmts (vital_ranges : VitalRanges)
  (patient_data : Reading) : det unit :=
  (* Check heart rate *)
  (let hr := dict_get patient_data "heart_rate" in
   if truthy hr then check_band "heart_rate" hr (heart_rate vital_ranges)
   else pass);;
  (* Check temperature *)
  (let temp := dict_get patient_data "temperature" in
   if truthy temp then check_band "temperature" temp (temperature vital_ranges)
   else pass);;
  (* Check oxygen saturation *)
  (let oxygen := dict_get patient_data "oxygen_saturation" in
   if truthy oxygen then
     check_band_low "oxygen_saturation" oxygen (oxygen_saturation vital_ranges)
   else pass);;
  (* Check respiratory rate *)
  (let resp_rate := dict_get patient_data "respiratory_rate" in
   if truthy resp_rate then
     check_band "respiratory_rate" resp_rate (respiratory_rate vital_ranges)
   else pass);;
  (* Check blood pressure *)
  check_blood_pressure vital_ranges patient_data.

(** [anomalies = []; ...; return anomalies] *)
Definition check_vital_thresholds (vital_ranges : VitalRanges)
  (patient_data : Reading) : result (list Finding) :=
  match check_vital_thresholds_stmts vital_ranges patient_data [] with
  | (anomalies, Ok _) => Ok anomalies
  | (_, Raise e) => Raise e
  end.

Definition reading_of (fields : list (string * pyval)) : Reading :=
  list_to_map fields.


(** ** The alert manager ([PatientAlertManager]) *)

(** One stored alert:
    [{"timestamp", "level", "anomalies", "vitals"}]. *)
Record Alert : Type := mkAlert {
  timestamp : string;
  level : string;
  anomalies : list Finding;
  vitals : Reading
}.

(** What [_format_alert_message] is given.  The rendered text depends on how
    Python prints floats and is not modelled; a log record keeps the
    arguments the text is built from. *)
Record AlertMessage : Type := mkMessage {
  msg_patient_id : string;
  msg_timestamp : string;
  msg_vitals : Reading;
  msg_anomalies : list Finding;
  msg_level : string
}.

Definition format_alert_message (patient_id timestamp : string) (vitals : Reading)
  (anomalies : list Finding) (level : string) : AlertMessage :=
  mkMessage patient_id timestamp vitals anomalies level.

Inductive LogCall : Type :=
  | log_info (msg : AlertMessage)
  | log_warning (msg : AlertMessage)
  | log_error (msg : AlertMessage)
  | log_critical (msg : AlertMessage).

(** The manager's state: [self.alert_history] and what has been handed to
    [self.logger]. *)
Record Manager : Type := mkManager {
  alert_history : gmap string (list Alert);
  logger : list LogCall
}.

(** [PatientAlertManager()] *)
Definition new_manager : Manager := mkManager ∅ [].

(** One turn of the loop at alert_manager.py 54-57.  The anomalies are the
    dictionaries the detector builds, which always carry ["severity"], so
    the default of [anomaly.get("severity", "low")] is never taken. *)
Definition raise_level (alert_level : string) (anomaly : Finding) : string :=
  let severity := upper (severity anomaly) in
  if ALERT_LEVELS_get alert_level <? ALERT_LEVELS_get severity then severity
  else alert_level.

(** alert_manager.py 53-57 *)
Definition overall_alert_level (anomalies : list Finding) : string :=
  fold_left raise_level anomalies "LOW".

(** alert_manager.py 63-70 *)
Definition log_alert (alert_level : string) (alert_msg : AlertMessage)
  (logger : list LogCall) : list LogCall :=
  if String.eqb alert_level "LOW" then (logger ++ [log_info alert_msg])%list
  else if String.eqb alert_level "MEDIUM" then (logger ++ [log_warning alert_msg])%list
  else if String.eqb alert_level "HIGH" then (logger ++ [log_error alert_msg])%list
  else if String.eqb alert_level "CRITICAL" then (logger ++ [log_critical alert_msg])%list
  else logger.

(** alert_manager.py 45-81 *)
Definition process_anomalies (self : Manager) (patient_id timestamp : string)
  (vitals : Reading) (anomalies : list Finding) : Manager :=
  match anomalies with
  | [] => self
  | _ :: _ =>
      (* Determine overall alert level based on anomaly severity *)
      let alert_level := overall_alert_level anomalies in
      (* Format alert message *)
      let alert_msg :=
        format_alert_message patient_id timestamp vitals anomalies alert_level in
      (* Log the alert based on its level *)
      let logger := log_alert alert_level alert_msg (logger self) in
      (* Store in history *)
      let history :=
        match alert_history self !! patient_id with
        | None => <[patient_id := []]> (alert_history self)
        | Some _ => alert_history self
        end in
      let stored := default [] (history !! patient_id) in
      let history :=
        <[patient_id := (stored ++ [mkAlert timestamp alert_level anomalies vitals])%list]>
          history in
      mkManager history logger
  end.

(** [lst[start:]] for an integer [start], by Python's slice rules: a
    negative start counts from the end, and both ends are clipped. *)
Definition slice_from {A} (lst : list A) (start : Z) : list A :=
  let len := Z.of_nat (length lst) in
  let start := if start <? 0 then Z.max 0 (start + len) else Z.min start len in
  drop (Z.to_nat start) lst.

(** alert_manager.py 119-124 *)
Definition get_patient_alerts (self : Manager) (patient_id : string) (limit : Z)
  : list Alert :=
  match alert_history self !! patient_id with
  | None => []
  | Some alerts => slice_from alerts (- limit)
  end.

(** ** Vocabulary of the specification *)

(** The four scalar vital kinds and where each lives in a reading and in
    the range table. *)
Inductive ScalarVital : Type :=
  | HeartRate
  | Temperature
  | OxygenSaturation
  | RespiratoryRate.

Definition key (k : ScalarVital) : string :=
  match k with
  | HeartRate => "heart_rate"
  | Temperature => "temperature"
  | OxygenSaturation => "oxygen_saturation"
  | RespiratoryRate => "respiratory_rate"
  end.

Definition range_of (vital_ranges : VitalRanges) (k : ScalarVital) : VitalRange :=
  match k with
  | HeartRate => heart_rate vital_ranges
  | Temperature => temperature vital_ranges
  | OxygenSaturation => oxygen_saturation vital_ranges
  | RespiratoryRate => respiratory_rate vital_ranges
  end.

Definition has_upper_checks (k : ScalarVital) : bool :=
  match k with
  | OxygenSaturation => false
  | _ => true
  end.

(** The findings of a result that concern one vital. *)
Definition findings_for (name : string) (l : list Finding) : list Finding :=
  List.filter (λ f, String.eqb (vital f) name) l.

Definition blood_pressure_related (f : Finding) : bool :=
  String.eqb (vital f) "blood_pressure_systolic"
  || String.eqb (vital f) "blood_pressure_diastolic"
  || String.eqb (vital f) "pulse_pressure".

(** The alert levels with their total order. *)
Inductive AlertLevel : Type :=
  | LOW
  | MEDIUM
  | HIGH
  | CRITICAL.

Definition level_rank (a : AlertLevel) : Z :=
  match a with
  | LOW => 1
  | MEDIUM => 2
  | HIGH => 3
  | CRITICAL => 4
  end.

Definition level_name (a : AlertLevel) : string :=
  match a with
  | LOW => "LOW"
  | MEDIUM => "MEDIUM"
  | HIGH => "HIGH"
  | CRITICAL => "CRITICAL"
  end.

Definition level_max (a b : AlertLevel) : AlertLevel :=
  if level_rank a <? level_rank b then b else a.

(** A severity tag mapped onto the levels: [medium] to [MEDIUM], [high] to
    [HIGH]; a tag that names no level counts as the lowest one. *)
Definition severity_to_level (sev : string) : AlertLevel :=
  let name := upper sev in
  if String.eqb name "MEDIUM" then MEDIUM
  else if String.eqb name "HIGH" then HIGH
  else if String.eqb name "CRITICAL" then CRITICAL
  else LOW.

Definition max_level (anomalies : list Finding) : AlertLevel :=
  foldr level_max LOW (map (λ f, severity_to_level (severity f)) anomalies).

(** The last [n] elements of a list. *)
Definition last_n {A} (n : nat) (l : list A) : list A :=
  drop (length l - n)%nat l.

(** ** What each block of the detector appends *)

Definition normal_findings (name : string) (v : pyval) (n : pynum) (range : VitalRange)
  : list Finding :=
  if num_lt n (r_min range) then
    [mkFinding name v "below normal" (r_min range) "medium"]
  else if num_lt (r_max range) n then
    [mkFinding name v "above normal" (r_max range) "medium"]
  else [].

Definition critical_findings (name : string) (v : pyval) (n : pynum) (range : VitalRange)
  : list Finding :=
  if num_lt n (critical_min range) then
    [mkFinding name v "critically low" (critical_min range) "high"]
  else if num_lt (critical_max range) n then
    [mkFinding name v "critically high" (critical_max range) "high"]
  else [].

Definition band_findings (name : string) (v : pyval) (n : pynum) (range : VitalRange)
  : list Finding :=
  (normal_findings name v n range ++ critical_findings name v n range)%list.

Definition low_band_findings (name : string) (v : pyval) (n : pynum) (range : VitalRange)
  : list Finding :=
  ((if num_lt n (r_min range) then
      [mkFinding name v "below normal" (r_min range) "medium"] else []) ++
   (if num_lt n (critical_min range) then
      [mkFinding name v "critically low" (critical_min range) "high"] else []))%list.

(** The findings of one scalar vital, or the exception its block raises. *)
Definition scalar_findings (k : ScalarVital) (vital_ranges : VitalRanges)
  (patient_data : Reading) : result (list Finding) :=
  let v := dict_get patient_data (key k) in
  if truthy v then
    match as_num v with
    | Some n =>
        Ok (if has_upper_checks k then band_findings (key k) v n (range_of vital_ranges k)
            else low_band_findings (key k) v n (range_of vital_ranges k))
    | None => Raise TypeError
    end
  else Ok [].

Definition pulse_pressure_findings (systolic diastolic : Z) : list Finding :=
  if 50 <? systolic - diastolic then
    [mkFinding "pulse_pressure" (PyInt (systolic - diastolic))
       "abnormal systolic-diastolic difference" (NInt 50) "medium"]
  else [].

Definition parsed_pressure_findings (vital_ranges : VitalRanges) (systolic diastolic : Z)
  : list Finding :=
  (band_findings "blood_pressure_systolic" (PyInt systolic) (NInt systolic)
     (blood_pressure_systolic vital_ranges) ++
   band_findings "blood_pressure_diastolic" (PyInt diastolic) (NInt diastolic)
     (blood_pressure_diastolic vital_ranges) ++
   pulse_pressure_findings systolic diastolic)%list.

(** The findings of the blood-pressure block, or the exception that
    escapes its [try]. *)
Definition blood_pressure_findings (vital_ranges : VitalRanges) (patient_data : Reading)
  : result (list Finding) :=
  match patient_data !! "blood_pressure" with
  | None => Ok []
  | Some bp =>
      match parse_blood_pressure bp with
      | Ok (systolic, diastolic) =>
          Ok (parsed_pressure_findings vital_ranges systolic diastolic)
      | Raise ValueError | Raise IndexError => Ok []
      | Raise e => Raise e
      end
  end.

(** [m] appends exactly the findings [r], or raises the exception [r]. *)
Definition appends (m : det unit) (r : result (list Finding)) : Prop :=
  ∀ anomalies,
    match r with
    | Ok fs => m anomalies = ((anomalies ++ fs)%list, Ok tt)
    | Raise e => (m anomalies).2 = Raise e
    end.

(** ** Predicates used in the statements *)

(** [critical_min < min <= max < critical_max] *)
Definition bands_ordered (range : VitalRange) : bool :=
  num_lt (critical_min range) (r_min range)
  && num_le (r_min range) (r_max range)
  && num_lt (r_max range) (critical_max range).

(** A scalar field the detector can digest: falsy (skipped) or a number. *)
Definition scalar_ok (v : pyval) : bool :=
  negb (truthy v) || match as_num v with Some _ => true | None => false end.

(** A blood-pressure field the detector can digest: absent or a string. *)
Definition blood_pressure_ok (patient_data : Reading) : bool :=
  match patient_data !! "blood_pressure" with
  | None => true
  | Some (PyStr _) => true
  | Some _ => false
  end.

Definition well_typed (patient_data : Reading) : bool :=
  forallb (λ k, scalar_ok (dict_get patient_data (key k)))
    [HeartRate; Temperature; OxygenSaturation; RespiratoryRate]
  && blood_pressure_ok patient_data.

(** One call of [process_anomalies]. *)
Record Call : Type := mkCall {
  call_patient_id : string;
  call_timestamp : string;
  call_vitals : Reading;
  call_anomalies : list Finding
}.

Definition process_call (self : Manager) (c : Call) : Manager :=
  process_anomalies self (call_patient_id c) (call_timestamp c) (call_vitals c)
    (call_anomalies c).

(** A sequence of calls, in order. *)
Definition process_calls (self : Manager) (calls : list Call) : Manager :=
  fold_left process_call calls self.

(** The alert a call records, if any. *)
Definition alert_of (c : Call) : list Alert :=
  match call_anomalies c with
  | [] => []
  | _ :: _ =>
      [mkAlert (call_timestamp c) (overall_alert_level (call_anomalies c))
         (call_anomalies c) (call_vitals c)]
  end.

(** The alerts recorded for one patient by a sequence of calls, in arrival
    order. *)
Fixpoint recorded (patient_id : string) (calls : list Call) : list Alert :=
  match calls with
  | [] => []
  | c :: rest =>
      if String.eqb (call_patient_id c) patient_id
      then (alert_of c ++ recorded patient_id rest)%list
      else recorded patient_id rest
  end.

(** No entry of the history is an empty list. *)
Definition no_empty_entry (self : Manager) : Prop :=
  ∀ patient_id, alert_history self !! patient_id ≠ Some [].

(** Sample data for the worked examples: one finding, and a manager that
    has recorded three alerts for one patient. *)
Definition sample_finding : Finding :=
  mkFinding "heart_rate" (PyInt 110) "above normal" (NInt 100) "medium".

Definition sample_alert (timestamp : string) : Alert :=
  mkAlert timestamp "MEDIUM" [sample_finding] ∅.

Definition three_records : Manager :=
  process_calls new_manager
    [ mkCall "patient-1" "t1" ∅ [sample_finding];
      mkCall "patient-1" "t2" ∅ [sample_finding];
      mkCall "patient-1" "t3" ∅ [sample_finding] ].

(** ** The statistical detector's history ([StatisticalAnomalyDetector]) *)

(** [d.get(key, dflt)]: the default is used only when the key is absent. *)
Definition dict_get_default (d : Reading) (key : string) (dflt : pyval) : pyval :=
  default dflt (d !! key).

(** detector.py 281-286 (and 323-328): the numeric vitals of a data point. *)
Definition numeric_vitals (data_point : Reading) : Reading :=
  list_to_map
    [ ("heart_rate", dict_get_default data_point "heart_rate" (PyInt 0));
      ("temperature", dict_get_default data_point "temperature" (PyInt 0));
      ("respiratory_rate", dict_get_default data_point "respiratory_rate" (PyInt 0));
      ("oxygen_saturation", dict_get_default data_point "oxygen_saturation" (PyInt 0)) ].

(** detector.py 291-293: the body of the [try], run against the dictionary
    [vitals]; an exception leaves the dictionary as it was when raised. *)
Definition parse_into (vitals : Reading) (bp : pyval) : Reading * result unit :=
  match split_slash bp with
  | Raise e => (vitals, Raise e)
  | Ok bp_parts =>
      match getitem bp_parts 0 ≫= py_int with
      | Raise e => (vitals, Raise e)
      | Ok systolic =>
          let vitals := <["systolic" := PyInt systolic]> vitals in
          match getitem bp_parts 1 ≫= py_int with
          | Raise e => (vitals, Raise e)
          | Ok diastolic => (<["diastolic" := PyInt diastolic]> vitals, Ok tt)
          end
      end
  end.

(** detector.py 289-296: [except (ValueError, IndexError)] sets both
    pressures to 0. *)
Definition add_blood_pressure (vitals data_point : Reading) : Reading * result unit :=
  match data_point !! "blood_pressure" with
  | None => (vitals, Ok tt)
  | Some bp =>
      match parse_into vitals bp with
      | (vitals, Raise ValueError) | (vitals, Raise IndexError) =>
          (<["diastolic" := PyInt 0]> (<["systolic" := PyInt 0]> vitals), Ok tt)
      | other => other
      end
  end.

(** detector.py 275-299; [history] is [self.history], which survives a
    raised exception. *)
Definition add_to_history (history : gmap string (list Reading)) (patient_id : string)
  (data_point : Reading) : gmap string (list Reading) * result unit :=
  let history :=
    match history !! patient_id with
    | None => <[patient_id := []]> history
    | Some _ => history
    end in
  (* Extract the numeric vitals, then parse blood pressure *)
  match add_blood_pressure (numeric_vitals data_point) data_point with
  | (vitals, Ok _) =>
      (* Add to history *)
      (<[patient_id := (default [] (history !! patient_id) ++ [vitals])%list]> history,
       Ok tt)
  | (_, Raise e) => (history, Raise e)
  end.

(** ** More of the alert manager *)

(** The count printed by [export_alerts_to_json] (alert_manager.py 131; the
    same expression is at main.py 176):
    [sum(len(alerts) for alerts in self.alert_history.values())]. *)
Definition total_alerts (self : Manager) : nat :=
  map_fold (λ _ alerts total, (length alerts + total)%nat) 0%nat (alert_history self).

(** [sub in s] for two strings. *)
Fixpoint str_in (sub s : string) : bool :=
  String.prefix sub s
  || match s with
     | EmptyString => false
     | String _ rest => str_in sub rest
     end.

(** alert_manager.py 92-97 *)
Definition comparison_of (reason : string) : string :=
  if str_in "above" reason then ">"
  else if str_in "below" reason then "<"
  else "!=".

(** One line of [anomaly_list] (alert_manager.py 99) before its fields are
    rendered as text: [{i}. {vital} {reason}: {value} {comparison}
    {threshold}]. *)
Record AnomalyLine : Type := mkLine {
  line_number : nat;
  line_vital : string;
  line_reason : string;
  line_value : pyval;
  line_comparison : string;
  line_threshold : pynum
}.

(** alert_manager.py 85-99: [for i, anomaly in enumerate(anomalies, 1)]. *)
Definition anomaly_lines (anomalies : list Finding) : list AnomalyLine :=
  imap (λ i anomaly,
          mkLine (S i) (vital anomaly) (reason anomaly) (value anomaly)
            (comparison_of (reason anomaly)) (threshold anomaly))
    anomalies.

(** The logger method the chain at alert_manager.py 63-70 picks for a
    level. *)
Definition log_method (a : AlertLevel) : AlertMessage → LogCall :=
  match a with
  | LOW => log_info
  | MEDIUM => log_warning
  | HIGH => log_error
  | CRITICAL => log_critical
  end.

(** ** The batch pipeline ([main.py]) *)

(** One element of [results] (main.py 109-120). *)
Record AnomalyResult : Type := mkResult {
  res_patient_id : pyval;
  res_timestamp : pyval;
  res_vitals : Reading;
  res_anomalies : list Finding
}.

(** main.py 112-118: the five-key snapshot, [None] for an absent vital. *)
Definition vitals_snapshot (record : Reading) : Reading :=
  list_to_map
    [ ("heart_rate", dict_get record "heart_rate");
      ("temperature", dict_get record "temperature");
      ("blood_pressure", dict_get record "blood_pressure");
      ("oxygen_saturation", dict_get record "oxygen_saturation");
      ("respiratory_rate", dict_get record "respiratory_rate") ].

(** main.py 105-120: one turn of the loop with the threshold detector. *)
Definition detect_record (vital_ranges : VitalRanges) (results : list AnomalyResult)
  (record : Reading) : result (list AnomalyResult) :=
  anomalies ← check_vital_thresholds vital_ranges record;
  match anomalies with
  | [] => Ok results
  | _ :: _ =>
      Ok (results ++ [mkResult (dict_get record "patient_id")
                        (dict_get record "timestamp")
                        (vitals_snapshot record) anomalies])%list
  end.

Fixpoint detect_records (vital_ranges : VitalRanges) (patient_data : list Reading)
  (results : list AnomalyResult) : result (list AnomalyResult) :=
  match patient_data with
  | [] => Ok results
  | record :: rest =>
      results ← detect_record vital_ranges results record;
      detect_records vital_ranges rest results
  end.

(** main.py 66-123, [detect_anomalies(patient_data)] with the default
    [detector_type="simple"]: the threshold detector on every record. *)
Definition detect_anomalies (vital_ranges : VitalRanges) (patient_data : list Reading)
  : result (list AnomalyResult) :=
  detect_records vital_ranges patient_data [].

(** What one record adds to [results] (main.py 106-120): nothing unless the
    detector returns at least one finding. *)
Definition results_of (vital_ranges : VitalRanges) (record : Reading)
  : list AnomalyResult :=
  match check_vital_thresholds vital_ranges record with
  | Ok (a :: rest) =>
      [mkResult (dict_get record "patient_id") (dict_get record "timestamp")
         (vitals_snapshot record) (a :: rest)]
  | _ => []
  end.

(** A result whose patient id and timestamp are strings, as a call of
    [process_anomalies]. *)
Definition call_of_result (r : AnomalyResult) : option Call :=
  match res_patient_id r, res_timestamp r with
  | PyStr patient_id, PyStr timestamp =>
      Some (mkCall patient_id timestamp (res_vitals r) (res_anomalies r))
  | _, _ => None
  end.

(** main.py 125-145: a fresh manager fed every result in order. *)
Definition generate_alerts (anomaly_results : list Call) : Manager :=
  process_calls new_manager anomaly_results.

(** ** The simulator's blood-pressure string ([simulator.py] 144) *)

Definition digit_char (d : Z) : ascii := ascii_of_nat (48 + Z.to_nat d).

(** The decimal digits of a non-negative integer, most significant first,
    in front of [acc]. *)
Fixpoint digits_onto (fuel : nat) (n : Z) (acc : string) : string :=
  match fuel with
  | O => acc
  | S fuel =>
      let acc := String (digit_char (n mod 10)) acc in
      if n / 10 =? 0 then acc else digits_onto fuel (n / 10) acc
  end.

(** [str(z)] for an integer. *)
Definition py_str_int (z : Z) : string :=
  if z <? 0 then String "-" (digits_onto (S (Z.to_nat (- z))) (- z) "")
  else digits_onto (S (Z.to_nat z)) z "".

(** [int(x)] for a finite float: truncation toward zero. *)
Definition py_int_of_float (x : Q) : Z := Z.quot (Qnum x) (Zpos (Qden x)).

(** simulator.py 144:
    [f"{int(new_vitals['blood_pressure_systolic'])}/{int(new_vitals['blood_pressure_diastolic'])}"];
    the two pressures are finite floats. *)
Definition bp_str (systolic diastolic : Q) : string :=
  py_str_int (py_int_of_float systolic) ++ "/" ++ py_str_int (py_int_of_float diastolic).

(** ** Predicates used in the further statements *)

(** The place of a vital in the processing order of the detector. *)
Definition vital_position (name : string) : nat :=
  if String.eqb name "heart_rate" then 0
  else if String.eqb name "temperature" then 1
  else if String.eqb name "oxygen_saturation" then 2
  else if String.eqb name "respiratory_rate" then 3
  else if String.eqb name "blood_pressure_systolic" then 4
  else if String.eqb name "blood_pressure_diastolic" then 5
  else 6.

(** A finding reports a real crossing: its value is strictly beyond its
    threshold on the side its reason names, and its severity is the one
    that goes with the reason. *)
Definition crossing (f : Finding) : bool :=
  match as_num (value f) with
  | None => false
  | Some n =>
      (String.eqb (reason f) "below normal" && num_lt n (threshold f)
       && String.eqb (severity f) "medium")
      || (String.eqb (reason f) "above normal" && num_lt (threshold f) n
          && String.eqb (severity f) "medium")
      || (String.eqb (reason f) "critically low" && num_lt n (threshold f)
          && String.eqb (severity f) "high")
      || (String.eqb (reason f) "critically high" && num_lt (threshold f) n
          && String.eqb (severity f) "high")
      || (String.eqb (reason f) "abnormal systolic-diastolic difference"
          && num_lt (threshold f) n && String.eqb (severity f) "medium")
  end.

(** The keys of a reading the detector looks at. *)
Definition detector_keys : list string :=
  ["heart_rate"; "temperature"; "oxygen_saturation"; "respiratory_rate";
   "blood_pressure"].

(** No slash occurs in a string. *)
Fixpoint slash_free (s : string) : bool :=
  match s with
  | EmptyString => true
  | String c rest => negb (Ascii.eqb c "/") && slash_free rest
  end.

(** Every scalar vital field is falsy or a number. *)
Definition scalars_ok (patient_data : Reading) : bool :=
  forallb (λ k, scalar_ok (dict_get patient_data (key k)))
    [HeartRate; Temperature; OxygenSaturation; RespiratoryRate].

(** Findings in the processing order of their vitals. *)
Definition vital_order (f g : Finding) : Prop :=
  (vital_position (vital f) ≤ vital_position (vital g))%nat.

(** No white space that [int] would strip occurs in a string. *)
Fixpoint space_free (s : string) : bool :=
  match s with
  | EmptyString => true
  | String c rest => negb (is_space c) && space_free rest
  end.

(** ** Facts about number comparison *)

Lemma Qlt_bool_iff (x y : Q) : Qlt_bool x y = true ↔ (x < y)%Q.
Proof. unfold Qlt_bool, Qlt. apply Z.ltb_lt. Qed.

Lemma Qlt_bool_false_iff (x y : Q) : Qlt_bool x y = false ↔ (y <= x)%Q.
Proof. unfold Qlt_bool, Qle. apply Z.ltb_ge. Qed.

Ltac float_reflect :=
  repeat match goal with
    | H : Qlt_bool _ _ = true |- _ => apply Qlt_bool_iff in H
    | H : Qlt_bool _ _ = false |- _ => apply Qlt_bool_false_iff in H
    | H : Qeq_bool _ _ = true |- _ => apply Qeq_bool_iff in H
    | |- Qlt_bool _ _ = true => apply Qlt_bool_iff
    | |- Qlt_bool _ _ = false => apply Qlt_bool_false_iff
    | |- Qeq_bool _ _ = true => apply Qeq_bool_iff
    end.

Ltac float_cases :=
  repeat match goal with f : pyfloat |- _ => destruct f end;
  simpl in *; try done; float_reflect; try lra.

Lemma float_lt_irrefl (a : pyfloat) : float_lt a a = false.
Proof. float_cases. Qed.

Lemma float_lt_trans (a b c : pyfloat) :
  float_lt a b = true → float_lt b c = true → float_lt a c = true.
Proof. intros; float_cases. Qed.

Lemma float_lt_asym (a b : pyfloat) :
  float_lt a b = true → float_lt b a = false.
Proof. intros; float_cases. Qed.

Lemma float_eq_lt_l (a b c : pyfloat) :
  float_eq a b = true → float_lt a c = float_lt b c.
Proof.
  intros H. destruct (float_lt b c) eqn:Hbc; float_cases.
Qed.

Lemma float_eq_lt_r (a b c : pyfloat) :
  float_eq a b = true → float_lt c a = float_lt c b.
Proof.
  intros H. destruct (float_lt c b) eqn:Hbc; float_cases.
Qed.

Lemma float_eq_not_lt (a b : pyfloat) :
  float_eq a b = true → float_lt a b = false ∧ float_lt b a = false.
Proof. intros; split; float_cases. Qed.

Lemma num_lt_trans (a b c : pynum) :
  num_lt a b = true → num_lt b c = true → num_lt a c = true.
Proof. apply float_lt_trans. Qed.

Lemma num_lt_irrefl (a : pynum) : num_lt a a = false.
Proof. apply float_lt_irrefl. Qed.

Lemma num_lt_asym (a b : pynum) : num_lt a b = true → num_lt b a = false.
Proof. apply float_lt_asym. Qed.

Lemma num_eq_lt_l (a b c : pynum) : num_eq a b = true → num_lt a c = num_lt b c.
Proof. apply float_eq_lt_l. Qed.

Lemma num_eq_lt_r (a b c : pynum) : num_eq a b = true → num_lt c a = num_lt c b.
Proof. apply float_eq_lt_r. Qed.

Lemma num_eq_not_lt (a b : pynum) :
  num_eq a b = true → num_lt a b = false ∧ num_lt b a = false.
Proof. apply float_eq_not_lt. Qed.

Lemma num_le_not_lt (a b : pynum) : num_le a b = true → num_lt b a = false.
Proof.
  unfold num_le. intros [H|H]%orb_true_iff.
  - by apply num_lt_asym.
  - by apply num_eq_not_lt.
Qed.

Lemma num_le_lt_trans (a b c : pynum) :
  num_le a b = true → num_lt b c = true → num_lt a c = true.
Proof.
  unfold num_le. intros [H|H]%orb_true_iff Hbc.
  - by eapply num_lt_trans.
  - by rewrite (num_eq_lt_l _ _ _ H).
Qed.

Lemma num_lt_le_trans (a b c : pynum) :
  num_lt a b = true → num_le b c = true → num_lt a c = true.
Proof.
  unfold num_le. intros Hab [H|H]%orb_true_iff.
  - by eapply num_lt_trans.
  - by rewrite <- (num_eq_lt_r _ _ _ H).
Qed.

(** ** The blocks of the detector *)

Lemma appends_pass : appends pass (Ok []).
Proof. intros s. simpl. unfold pass, mret, det_ret. by rewrite app_nil_r. Qed.

Lemma appends_seq (m1 m2 : det unit) (r1 r2 : result (list Finding)) :
  appends m1 r1 → appends m2 r2 →
  appends (m1 ;; m2) (a ← r1; b ← r2; mret (a ++ b)%list).
Proof.
  intros H1 H2 s. specialize (H1 s).
  unfold mbind, det_bind, result_bind, mret, result_ret.
  destruct r1 as [fs1|e1].
  - rewrite H1. specialize (H2 (s ++ fs1)%list).
    destruct r2 as [fs2|e2].
    + by rewrite H2, app_assoc.
    + done.
  - destruct (m1 s) as [s' [[]|e]]; simpl in *; congruence.
Qed.

Lemma check_band_appends (name : string) (v : pyval) (range : VitalRange) :
  appends (check_band name v range)
    (match as_num v with
     | Some n => Ok (band_findings name v n range)
     | None => Raise TypeError
     end).
Proof.
  intros s. unfold check_band, py_lt, py_gt.
  destruct (as_num v) as [n|]; [|done].
  unfold band_findings, normal_findings, critical_findings.
  unfold mbind, det_bind, eval, append, pass, mret, det_ret.
  destruct (num_lt n (r_min range)), (num_lt (r_max range) n),
    (num_lt n (critical_min range)), (num_lt (critical_max range) n);
    simpl; rewrite <- ?app_assoc, ?app_nil_r; done.
Qed.

Lemma check_band_low_appends (name : string) (v : pyval) (range : VitalRange) :
  appends (check_band_low name v range)
    (match as_num v with
     | Some n => Ok (low_band_findings name v n range)
     | None => Raise TypeError
     end).
Proof.
  intros s. unfold check_band_low, py_lt.
  destruct (as_num v) as [n|]; [|done].
  unfold low_band_findings.
  unfold mbind, det_bind, eval, append, pass, mret, det_ret.
  destruct (num_lt n (r_min range)), (num_lt n (critical_min range));
    simpl; rewrite <- ?app_assoc, ?app_nil_r; done.
Qed.

Lemma check_blood_pressure_appends (vital_ranges : VitalRanges) (patient_data : Reading) :
  appends (check_blood_pressure vital_ranges patient_data)
    (blood_pressure_findings vital_ranges patient_data).
Proof.
  unfold check_blood_pressure, blood_pressure_findings.
  destruct (patient_data !! "blood_pressure") as [bp|]; [|apply appends_pass].
  intros s. unfold try_except_value_index.
  unfold mbind at 1, det_bind, eval.
  destruct (parse_blood_pressure bp) as [[systolic diastolic]|e].
  - pose proof (appends_seq _ _ _ _
      (check_band_appends "blood_pressure_systolic" (PyInt systolic)
         (blood_pressure_systolic vital_ranges))
      (appends_seq _ _ _ _
         (check_band_appends "blood_pressure_diastolic" (PyInt diastolic)
            (blood_pressure_diastolic vital_ranges))
         (appends_pass))) as H.
    simpl in H. specialize (H s). simpl in H.
    unfold parsed_pressure_findings, pulse_pressure_findings.
    destruct (50 <? systolic - diastolic) eqn:Hpp.
    + revert H. unfold mbind, det_bind, pass, mret, det_ret, append.
      destruct (check_band "blood_pressure_systolic" _ _ s) as [s1 [[]|e1]]; [|done].
      destruct (check_band "blood_pressure_diastolic" _ _ s1) as [s2 [[]|e2]]; [|done].
      intros [= ->]. by rewrite app_nil_r, <- !app_assoc.
    + revert H. unfold mbind, det_bind, pass, mret, det_ret.
      destruct (check_band "blood_pressure_systolic" _ _ s) as [s1 [[]|e1]]; [|done].
      destruct (check_band "blood_pressure_diastolic" _ _ s1) as [s2 [[]|e2]]; [|done].
      intros [= ->]. by rewrite !app_nil_r.
  - destruct e; simpl; by rewrite ?app_nil_r.
Qed.

Lemma scalar_block_appends (k : ScalarVital) (vital_ranges : VitalRanges)
  (patient_data : Reading) :
  appends
    (let v := dict_get patient_data (key k) in
     if truthy v then
       (if has_upper_checks k then check_band (key k) v (range_of vital_ranges k)
        else check_band_low (key k) v (range_of vital_ranges k))
     else pass)
    (scalar_findings k vital_ranges patient_data).
Proof.
  unfold scalar_findings. cbv zeta.
  destruct (truthy (dict_get patient_data (key k))); [|apply appends_pass].
  destruct (has_upper_checks k).
  - pose proof (check_band_appends (key k) (dict_get patient_data (key k))
                  (range_of vital_ranges k)) as H.
    by destruct (as_num (dict_get patient_data (key k))).
  - pose proof (check_band_low_appends (key k) (dict_get patient_data (key k))
                  (range_of vital_ranges k)) as H.
    by destruct (as_num (dict_get patient_data (key k))).
Qed.

(** The result of [check_vital_thresholds] is the concatenation of the five
    blocks' findings in source order, or the first exception one raises. *)
Lemma check_vital_thresholds_blocks (vital_ranges : VitalRanges) (patient_data : Reading) :
  check_vital_thresholds vital_ranges patient_data =
    (hr ← scalar_findings HeartRate vital_ranges patient_data;
     temp ← scalar_findings Temperature vital_ranges patient_data;
     oxygen ← scalar_findings OxygenSaturation vital_ranges patient_data;
     resp ← scalar_findings RespiratoryRate vital_ranges patient_data;
     bp ← blood_pressure_findings vital_ranges patient_data;
     mret (hr ++ temp ++ oxygen ++ resp ++ bp)%list).
Proof.
  pose proof (appends_seq _ _ _ _
    (scalar_block_appends HeartRate vital_ranges patient_data)
    (appends_seq _ _ _ _
      (scalar_block_appends Temperature vital_ranges patient_data)
      (appends_seq _ _ _ _
        (scalar_block_appends OxygenSaturation vital_ranges patient_data)
        (appends_seq _ _ _ _
          (scalar_block_appends RespiratoryRate vital_ranges patient_data)
          (check_blood_pressure_appends vital_ranges patient_data))))) as H.
  specialize (H []).
  unfold check_vital_thresholds, check_vital_thresholds_stmts.
  cbv beta zeta iota delta [key has_upper_checks range_of] in H.
  match goal with
  | |- context [match ?m [] with _ => _ end] => set (stmts := m) in *
  end.
  clearbody stmts.
  destruct (scalar_findings HeartRate vital_ranges patient_data) as [hr|e1],
    (scalar_findings Temperature vital_ranges patient_data) as [temp|e2],
    (scalar_findings OxygenSaturation vital_ranges patient_data) as [ox|e3],
    (scalar_findings RespiratoryRate vital_ranges patient_data) as [rr|e4],
    (blood_pressure_findings vital_ranges patient_data) as [bp|e5];
    simpl in H |- *; unfold mret, result_ret;
    destruct (stmts []) as [s' [[]|e0]]; simpl in H; congruence.
Qed.

(** ** Which vital a block's findings carry *)

Lemma findings_for_app (name : string) (a b : list Finding) :
  findings_for name (a ++ b) = (findings_for name a ++ findings_for name b)%list.
Proof. apply List.filter_app. Qed.

Lemma findings_for_same (name : string) (fs : list Finding) :
  Forall (λ f, vital f = name) fs → findings_for name fs = fs.
Proof.
  induction 1 as [|f fs Hf _ IH]; [done|].
  unfold findings_for in *. simpl. rewrite Hf, String.eqb_refl. by f_equal.
Qed.

Lemma findings_for_other (name name' : string) (fs : list Finding) :
  Forall (λ f, vital f = name') fs → name ≠ name' → findings_for name fs = [].
Proof.
  intros Hfs Hne. induction Hfs as [|f fs Hf _ IH]; [done|].
  unfold findings_for in *. simpl. rewrite Hf.
  destruct (String.eqb_spec name' name); [congruence|done].
Qed.

Lemma band_findings_vital (name : string) (v : pyval) (n : pynum) (range : VitalRange) :
  Forall (λ f, vital f = name) (band_findings name v n range).
Proof.
  unfold band_findings, normal_findings, critical_findings.
  repeat case_match; repeat constructor.
Qed.

Lemma low_band_findings_vital (name : string) (v : pyval) (n : pynum) (range : VitalRange) :
  Forall (λ f, vital f = name) (low_band_findings name v n range).
Proof. unfold low_band_findings. repeat case_match; repeat constructor. Qed.

Lemma scalar_findings_vital (k : ScalarVital) (vital_ranges : VitalRanges)
  (patient_data : Reading) (fs : list Finding) :
  scalar_findings k vital_ranges patient_data = Ok fs →
  Forall (λ f, vital f = key k) fs.
Proof.
  unfold scalar_findings. cbv zeta. repeat case_match; intros [= <-];
    auto using band_findings_vital, low_band_findings_vital.
Qed.

Lemma blood_pressure_findings_related (vital_ranges : VitalRanges)
  (patient_data : Reading) (fs : list Finding) :
  blood_pressure_findings vital_ranges patient_data = Ok fs →
  Forall (λ f, blood_pressure_related f = true) fs.
Proof.
  unfold blood_pressure_findings. repeat case_match; intros [= <-]; try done.
  unfold parsed_pressure_findings, pulse_pressure_findings.
  rewrite !Forall_app. split_and!.
  - eapply Forall_impl; [apply band_findings_vital|].
    intros f Hf. unfold blood_pressure_related. by rewrite Hf.
  - eapply Forall_impl; [apply band_findings_vital|].
    intros f Hf. unfold blood_pressure_related. by rewrite Hf.
  - case_match; repeat constructor.
Qed.

Lemma scalar_not_blood_pressure (k : ScalarVital) (f : Finding) :
  vital f = key k → blood_pressure_related f = false.
Proof. intros Hf. unfold blood_pressure_related. rewrite Hf. by destruct k. Qed.

Lemma findings_for_blood_pressure (k : ScalarVital) (fs : list Finding) :
  Forall (λ f, blood_pressure_related f = true) fs → findings_for (key k) fs = [].
Proof.
  induction 1 as [|f fs Hf _ IH]; [done|].
  unfold findings_for in *. simpl.
  destruct (String.eqb_spec (vital f) (key k)) as [Heq|]; [|done].
  apply (scalar_not_blood_pressure k) in Heq. congruence.
Qed.

Lemma key_inj (k k' : ScalarVital) : key k = key k' → k = k'.
Proof. by destruct k, k'. Qed.

(** In a returned list, the findings that carry a scalar vital's name are
    exactly the ones its own block appended. *)
Lemma findings_for_scalar (k : ScalarVital) (vital_ranges : VitalRanges)
  (patient_data : Reading) (l : list Finding) :
  check_vital_thresholds vital_ranges patient_data = Ok l →
  scalar_findings k vital_ranges patient_data = Ok (findings_for (key k) l).
Proof.
  rewrite check_vital_thresholds_blocks.
  destruct (scalar_findings HeartRate _ _) as [hr|] eqn:Hhr; [|done].
  destruct (scalar_findings Temperature _ _) as [temp|] eqn:Htemp; [|done].
  destruct (scalar_findings OxygenSaturation _ _) as [ox|] eqn:Hox; [|done].
  destruct (scalar_findings RespiratoryRate _ _) as [rr|] eqn:Hrr; [|done].
  destruct (blood_pressure_findings _ _) as [bp|] eqn:Hbp; [|done].
  intros [= <-]. rewrite !findings_for_app.
  apply scalar_findings_vital in Hhr as Vhr, Htemp as Vtemp, Hox as Vox, Hrr as Vrr.
  apply blood_pressure_findings_related in Hbp as Vbp.
  rewrite (findings_for_blood_pressure k bp Vbp), app_nil_r.
  destruct k; cbn [key] in *.
  - rewrite (findings_for_same _ hr Vhr).
    rewrite (findings_for_other _ _ temp Vtemp) by done.
    rewrite (findings_for_other _ _ ox Vox) by done.
    rewrite (findings_for_other _ _ rr Vrr) by done.
    simpl. by rewrite ?app_nil_r.
  - rewrite (findings_for_same _ temp Vtemp).
    rewrite (findings_for_other _ _ hr Vhr) by done.
    rewrite (findings_for_other _ _ ox Vox) by done.
    rewrite (findings_for_other _ _ rr Vrr) by done.
    simpl. by rewrite ?app_nil_r.
  - rewrite (findings_for_same _ ox Vox).
    rewrite (findings_for_other _ _ hr Vhr) by done.
    rewrite (findings_for_other _ _ temp Vtemp) by done.
    rewrite (findings_for_other _ _ rr Vrr) by done.
    simpl. by rewrite ?app_nil_r.
  - rewrite (findings_for_same _ rr Vrr).
    rewrite (findings_for_other _ _ hr Vhr) by done.
    rewrite (findings_for_other _ _ temp Vtemp) by done.
    rewrite (findings_for_other _ _ ox Vox) by done.
    simpl. by rewrite ?app_nil_r.
Qed.

(** ** Properties of [check_vital_thresholds] *)

(** C9.  A reading whose only vital field is [blood_pressure = "200/130"]
    yields, with the default ranges, exactly five findings in this order:
    systolic above normal (medium), systolic critically high (high),
    diastolic above normal (medium), diastolic critically high (high), and
    the pulse-pressure finding (value 70, threshold 50, medium). *)
Theorem blood_pressure_200_130_five_findings :
  check_vital_thresholds VITAL_RANGES (reading_of [("blood_pressure", PyStr "200/130")])
  = Ok [ mkFinding "blood_pressure_systolic" (PyInt 200) "above normal" (NInt 120) "medium";
         mkFinding "blood_pressure_systolic" (PyInt 200) "critically high" (NInt 180) "high";
         mkFinding "blood_pressure_diastolic" (PyInt 130) "above normal" (NInt 80) "medium";
         mkFinding "blood_pressure_diastolic" (PyInt 130) "critically high" (NInt 110) "high";
         mkFinding "pulse_pressure" (PyInt 70) "abnormal systolic-diastolic difference"
           (NInt 50) "medium" ].
Proof. vm_compute. reflexivity. Qed.

(** C1 (the code departs from the claim).  A reading with [heart_rate = 0]
    (the integer, the float, or [False]) yields no finding at all with the
    default ranges: the truthiness test [if heart_rate:] skips the block,
    although 0 is below both 60 and 40.  The blood-pressure block, which
    tests presence with [in], does evaluate a zero: ["0/0"] yields the
    systolic and diastolic below-normal and critically-low findings. *)
Theorem heart_rate_zero_is_skipped :
  check_vital_thresholds VITAL_RANGES (reading_of [("heart_rate", PyInt 0)]) = Ok []
  ∧ check_vital_thresholds VITAL_RANGES
      (reading_of [("heart_rate", PyFloat (FFinite 0))]) = Ok []
  ∧ check_vital_thresholds VITAL_RANGES (reading_of [("heart_rate", PyBool false)]) = Ok []
  ∧ check_vital_thresholds VITAL_RANGES (reading_of [("blood_pressure", PyStr "0/0")])
    = Ok [ mkFinding "blood_pressure_systolic" (PyInt 0) "below normal" (NInt 90) "medium";
           mkFinding "blood_pressure_systolic" (PyInt 0) "critically low" (NInt 80) "high";
           mkFinding "blood_pressure_diastolic" (PyInt 0) "below normal" (NInt 60) "medium";
           mkFinding "blood_pressure_diastolic" (PyInt 0) "critically low" (NInt 50) "high" ].
Proof. repeat split; vm_compute; reflexivity. Qed.

Lemma dict_get_delete_ne (patient_data : Reading) (k k' : string) :
  k ≠ k' → dict_get (delete k patient_data) k' = dict_get patient_data k'.
Proof. intros Hne. unfold dict_get. by rewrite lookup_delete_ne. Qed.

Lemma scalar_findings_delete_blood_pressure (k : ScalarVital)
  (vital_ranges : VitalRanges) (patient_data : Reading) :
  scalar_findings k vital_ranges (delete "blood_pressure" patient_data)
  = scalar_findings k vital_ranges patient_data.
Proof.
  unfold scalar_findings. rewrite dict_get_delete_ne; [done|]. by destruct k.
Qed.

Lemma parse_blood_pressure_str_error (s : string) (e : exn) :
  parse_blood_pressure (PyStr s) = Raise e → e = ValueError ∨ e = IndexError.
Proof.
  unfold parse_blood_pressure, split_slash, getitem, py_int.
  unfold mbind, result_bind, mret, result_ret.
  repeat case_match; intros [= <-]; simplify_eq; auto.
Qed.

Lemma scalar_findings_unrelated (k : ScalarVital) (vital_ranges : VitalRanges)
  (patient_data : Reading) (fs : list Finding) :
  scalar_findings k vital_ranges patient_data = Ok fs →
  Forall (λ f, blood_pressure_related f = false) fs.
Proof.
  intros H%scalar_findings_vital. eapply Forall_impl; [exact H|].
  intros f Hf. by apply (scalar_not_blood_pressure k).
Qed.

(** The part of the blood-pressure handling that works: when the
    [blood_pressure] field is a string that does not parse as two integers
    around a slash, the blood-pressure block contributes nothing: it
    appends no finding and raises nothing, the result is the one obtained
    from the same reading without the field (so every other vital is
    evaluated as usual), and no blood-pressure-related finding occurs in a
    returned list. *)
Theorem unparsable_blood_pressure_is_ignored (vital_ranges : VitalRanges)
  (patient_data : Reading) (s : string) (e : exn) :
  patient_data !! "blood_pressure" = Some (PyStr s) →
  parse_blood_pressure (PyStr s) = Raise e →
  blood_pressure_findings vital_ranges patient_data = Ok []
  ∧ check_vital_thresholds vital_ranges patient_data
    = check_vital_thresholds vital_ranges (delete "blood_pressure" patient_data)
  ∧ (∀ l, check_vital_thresholds vital_ranges patient_data = Ok l →
          Forall (λ f, blood_pressure_related f = false) l)
  ∧ (∀ k l, check_vital_thresholds vital_ranges patient_data = Ok l →
            scalar_findings k vital_ranges patient_data = Ok (findings_for (key k) l)).
Proof.
  intros Hbp Herr.
  assert (Hnone : blood_pressure_findings vital_ranges patient_data = Ok []).
  { unfold blood_pressure_findings. rewrite Hbp, Herr.
    by destruct (parse_blood_pressure_str_error _ _ Herr) as [-> | ->]. }
  split_and!.
  - exact Hnone.
  - rewrite !check_vital_thresholds_blocks, !scalar_findings_delete_blood_pressure.
    rewrite Hnone. unfold blood_pressure_findings at 1.
    by rewrite lookup_delete_eq.
  - intros l. rewrite check_vital_thresholds_blocks, Hnone.
    destruct (scalar_findings HeartRate _ _) as [hr|] eqn:Hhr; [|done].
    destruct (scalar_findings Temperature _ _) as [temp|] eqn:Htemp; [|done].
    destruct (scalar_findings OxygenSaturation _ _) as [ox|] eqn:Hox; [|done].
    destruct (scalar_findings RespiratoryRate _ _) as [rr|] eqn:Hrr; [|done].
    intros [= <-]. rewrite !Forall_app.
    split_and!; eauto using scalar_findings_unrelated.
  - intros k l. apply findings_for_scalar.
Qed.

Lemma unparsable_blood_pressure_is_ignored_witness :
  check_vital_thresholds VITAL_RANGES
    (reading_of [("blood_pressure", PyStr "not-a-number"); ("heart_rate", PyInt 39)])
  = check_vital_thresholds VITAL_RANGES
      (delete "blood_pressure"
         (reading_of [("blood_pressure", PyStr "not-a-number"); ("heart_rate", PyInt 39)])).
Proof.
  apply (unparsable_blood_pressure_is_ignored VITAL_RANGES
           (reading_of [("blood_pressure", PyStr "not-a-number"); ("heart_rate", PyInt 39)])
           "not-a-number" ValueError).
  - vm_compute. reflexivity.
  - vm_compute. reflexivity.
Defined.

(** C5 (the code departs from the claim).  A [blood_pressure] that is
    present and is not a string ([None], a number) also fails to parse, but
    not with an exception the [try] catches: [None.split] raises
    [AttributeError], the call raises, and the findings of the other vitals
    are lost.  With heart rate 39 beside it, a [None] (or numeric) blood
    pressure gives an [AttributeError], where the same reading without the
    field, or with an unparsable string in it, gives the two heart-rate
    findings. *)
Theorem non_string_blood_pressure_loses_other_vitals :
  check_vital_thresholds VITAL_RANGES
    (reading_of [("blood_pressure", PyNone); ("heart_rate", PyInt 39)])
  = Raise AttributeError
  ∧ check_vital_thresholds VITAL_RANGES
      (reading_of [("blood_pressure", PyInt 120); ("heart_rate", PyInt 39)])
    = Raise AttributeError
  ∧ check_vital_thresholds VITAL_RANGES (reading_of [("heart_rate", PyInt 39)])
    = Ok [ mkFinding "heart_rate" (PyInt 39) "below normal" (NInt 60) "medium";
           mkFinding "heart_rate" (PyInt 39) "critically low" (NInt 40) "high" ]
  ∧ check_vital_thresholds VITAL_RANGES
      (reading_of [("blood_pressure", PyStr "not-a-number"); ("heart_rate", PyInt 39)])
    = Ok [ mkFinding "heart_rate" (PyInt 39) "below normal" (NInt 60) "medium";
           mkFinding "heart_rate" (PyInt 39) "critically low" (NInt 40) "high" ].
Proof. repeat split; vm_compute; reflexivity. Qed.

Lemma scalar_findings_ok (k : ScalarVital) (vital_ranges : VitalRanges)
  (patient_data : Reading) :
  scalar_ok (dict_get patient_data (key k)) = true →
  ∃ fs, scalar_findings k vital_ranges patient_data = Ok fs.
Proof.
  unfold scalar_ok, scalar_findings. cbv zeta.
  destruct (truthy _); [|by eauto].
  destruct (as_num _); [by eauto|done].
Qed.

Lemma blood_pressure_findings_ok (vital_ranges : VitalRanges) (patient_data : Reading) :
  blood_pressure_ok patient_data = true →
  ∃ fs, blood_pressure_findings vital_ranges patient_data = Ok fs.
Proof.
  unfold blood_pressure_ok, blood_pressure_findings.
  destruct (patient_data !! "blood_pressure") as [[| | | |s| |]|]; try done; [|by eauto].
  intros _. destruct (parse_blood_pressure (PyStr s)) as [[sys dia]|e] eqn:Hp; [by eauto|].
  destruct (parse_blood_pressure_str_error _ _ Hp) as [-> | ->]; eauto.
Qed.

(** C3 (the code departs from the claim).  A reading whose [blood_pressure]
    is present and not a string makes [check_vital_thresholds] raise:
    [None] and numbers have no [split], and the [AttributeError] is not
    among the exceptions the [try] catches, although the block is there to
    swallow a bad blood pressure (a malformed string is swallowed) and the
    scalar blocks skip a [None]. *)
Theorem non_string_blood_pressure_raises :
  check_vital_thresholds VITAL_RANGES (reading_of [("blood_pressure", PyNone)])
  = Raise AttributeError
  ∧ check_vital_thresholds VITAL_RANGES (reading_of [("blood_pressure", PyInt 120)])
    = Raise AttributeError
  ∧ check_vital_thresholds VITAL_RANGES
      (reading_of [("blood_pressure", PyFloat (FFinite (241 # 2)))])
    = Raise AttributeError
  ∧ check_vital_thresholds VITAL_RANGES
      (reading_of [("blood_pressure", PyStr "not-a-number")])
    = Ok []
  ∧ check_vital_thresholds VITAL_RANGES (reading_of [("heart_rate", PyNone)]) = Ok [].
Proof. repeat split; vm_compute; reflexivity. Qed.

(** Where the call does return: for every reading whose scalar vital fields
    are each absent, falsy or a number, and whose [blood_pressure] field is
    absent or a string (well-formed or not), [check_vital_thresholds]
    returns a list of findings and raises nothing. *)
Theorem check_vital_thresholds_total_on_typed_readings (vital_ranges : VitalRanges)
  (patient_data : Reading) :
  well_typed patient_data = true →
  ∃ l, check_vital_thresholds vital_ranges patient_data = Ok l.
Proof.
  unfold well_typed. cbn [forallb]. rewrite !andb_true_iff.
  intros [(Hhr & Htemp & Hox & Hrr & _) Hbp].
  rewrite check_vital_thresholds_blocks.
  destruct (scalar_findings_ok HeartRate vital_ranges _ Hhr) as [hr ->].
  destruct (scalar_findings_ok Temperature vital_ranges _ Htemp) as [temp ->].
  destruct (scalar_findings_ok OxygenSaturation vital_ranges _ Hox) as [ox ->].
  destruct (scalar_findings_ok RespiratoryRate vital_ranges _ Hrr) as [rr ->].
  destruct (blood_pressure_findings_ok vital_ranges _ Hbp) as [bp ->].
  eexists. reflexivity.
Qed.

Lemma check_vital_thresholds_total_on_typed_readings_witness :
  ∃ l, check_vital_thresholds VITAL_RANGES
         (reading_of [("heart_rate", PyFloat (FFinite 135)); ("temperature", PyNone);
                      ("oxygen_saturation", PyInt 0); ("blood_pressure", PyStr "12o/80")])
       = Ok l.
Proof.
  apply (check_vital_thresholds_total_on_typed_readings VITAL_RANGES).
  vm_compute. reflexivity.
Defined.

(** The other direction: an ill-typed reading makes the call raise. *)
Lemma check_vital_thresholds_raises_on_untyped_readings (vital_ranges : VitalRanges)
  (patient_data : Reading) :
  well_typed patient_data = false →
  ∃ e, check_vital_thresholds vital_ranges patient_data = Raise e.
Proof.
  unfold well_typed. cbn [forallb]. rewrite check_vital_thresholds_blocks.
  unfold scalar_findings, scalar_ok, blood_pressure_ok, blood_pressure_findings.
  cbv zeta. cbn [key].
  destruct (truthy (dict_get patient_data "heart_rate")),
    (as_num (dict_get patient_data "heart_rate")); simpl; eauto;
  destruct (truthy (dict_get patient_data "temperature")),
    (as_num (dict_get patient_data "temperature")); simpl; eauto;
  destruct (truthy (dict_get patient_data "oxygen_saturation")),
    (as_num (dict_get patient_data "oxygen_saturation")); simpl; eauto;
  destruct (truthy (dict_get patient_data "respiratory_rate")),
    (as_num (dict_get patient_data "respiratory_rate")); simpl; eauto;
  destruct (patient_data !! "blood_pressure") as [[| | | |s| |]|]; simpl; eauto; done.
Qed.

(** C4 (counterexample).  A heart rate equal to [critical_min] (40 with the
    default ranges) does produce a finding: 40 is below the normal minimum
    60, so the below-normal finding is appended. *)
Lemma heart_rate_at_critical_min_has_finding :
  check_vital_thresholds VITAL_RANGES (reading_of [("heart_rate", PyInt 40)])
  = Ok [mkFinding "heart_rate" (PyInt 40) "below normal" (NInt 60) "medium"].
Proof. vm_compute. reflexivity. Qed.

Lemma scalar_findings_value (k : ScalarVital) (vital_ranges : VitalRanges)
  (patient_data : Reading) (v : pyval) (n : pynum) :
  patient_data !! key k = Some v → as_num v = Some n → truthy v = true →
  scalar_findings k vital_ranges patient_data
  = Ok (if has_upper_checks k then band_findings (key k) v n (range_of vital_ranges k)
        else low_band_findings (key k) v n (range_of vital_ranges k)).
Proof.
  intros Hv Hn Ht. unfold scalar_findings, dict_get. rewrite Hv. simpl.
  by rewrite Ht, Hn.
Qed.

Lemma scalar_findings_falsy (k : ScalarVital) (vital_ranges : VitalRanges)
  (patient_data : Reading) (v : pyval) :
  patient_data !! key k = Some v → truthy v = false →
  scalar_findings k vital_ranges patient_data = Ok [].
Proof.
  intros Hv Ht. unfold scalar_findings, dict_get. rewrite Hv. simpl. by rewrite Ht.
Qed.

Lemma bands_ordered_elim (range : VitalRange) :
  bands_ordered range = true →
  num_lt (critical_min range) (r_min range) = true
  ∧ num_le (r_min range) (r_max range) = true
  ∧ num_lt (r_max range) (critical_max range) = true
  ∧ num_lt (critical_min range) (r_max range) = true
  ∧ num_lt (r_min range) (critical_max range) = true
  ∧ num_lt (critical_min range) (critical_max range) = true.
Proof.
  unfold bands_ordered. rewrite !andb_true_iff. intros [[H1 H2] H3].
  assert (H4 := num_lt_le_trans _ _ _ H1 H2).
  assert (H5 := num_le_lt_trans _ _ _ H2 H3).
  assert (H6 := num_lt_trans _ _ _ H1 H5).
  done.
Qed.

(** The four comparisons of a block, decided by where the value sits. *)
Lemma comparisons_at_min (range : VitalRange) (n : pynum) :
  bands_ordered range = true → num_eq n (r_min range) = true →
  num_lt n (r_min range) = false ∧ num_lt (r_max range) n = false
  ∧ num_lt n (critical_min range) = false ∧ num_lt (critical_max range) n = false.
Proof.
  intros (H1 & H2 & H3 & H4 & H5 & H6)%bands_ordered_elim Heq.
  rewrite !(num_eq_lt_l _ _ _ Heq), !(num_eq_lt_r _ _ _ Heq).
  split_and!.
  - apply num_lt_irrefl.
  - by apply num_le_not_lt.
  - by apply num_lt_asym.
  - by apply num_lt_asym.
Qed.

Lemma comparisons_at_max (range : VitalRange) (n : pynum) :
  bands_ordered range = true → num_eq n (r_max range) = true →
  num_lt n (r_min range) = false ∧ num_lt (r_max range) n = false
  ∧ num_lt n (critical_min range) = false ∧ num_lt (critical_max range) n = false.
Proof.
  intros (H1 & H2 & H3 & H4 & H5 & H6)%bands_ordered_elim Heq.
  rewrite !(num_eq_lt_l _ _ _ Heq), !(num_eq_lt_r _ _ _ Heq).
  split_and!.
  - by apply num_le_not_lt.
  - apply num_lt_irrefl.
  - by apply num_lt_asym.
  - by apply num_lt_asym.
Qed.

Lemma comparisons_at_critical_min (range : VitalRange) (n : pynum) :
  bands_ordered range = true → num_eq n (critical_min range) = true →
  num_lt n (r_min range) = true
  ∧ num_lt n (critical_min range) = false ∧ num_lt (critical_max range) n = false.
Proof.
  intros (H1 & H2 & H3 & H4 & H5 & H6)%bands_ordered_elim Heq.
  rewrite !(num_eq_lt_l _ _ _ Heq), !(num_eq_lt_r _ _ _ Heq).
  split_and!.
  - done.
  - apply num_lt_irrefl.
  - by apply num_lt_asym.
Qed.

Lemma comparisons_at_critical_max (range : VitalRange) (n : pynum) :
  bands_ordered range = true → num_eq n (critical_max range) = true →
  num_lt n (r_min range) = false ∧ num_lt (r_max range) n = true
  ∧ num_lt n (critical_min range) = false ∧ num_lt (critical_max range) n = false.
Proof.
  intros (H1 & H2 & H3 & H4 & H5 & H6)%bands_ordered_elim Heq.
  rewrite !(num_eq_lt_l _ _ _ Heq), !(num_eq_lt_r _ _ _ Heq).
  split_and!.
  - by apply num_lt_asym.
  - done.
  - by apply num_lt_asym.
  - apply num_lt_irrefl.
Qed.

Lemma comparisons_below_min (range : VitalRange) (n : pynum) :
  bands_ordered range = true → num_lt n (r_min range) = true →
  num_lt (critical_max range) n = false.
Proof.
  intros (H1 & H2 & H3 & H4 & H5 & H6)%bands_ordered_elim Hlt.
  apply num_lt_asym. by eapply num_lt_trans.
Qed.

(** C4 (amended).  For a scalar vital whose bands satisfy
    [critical_min < min <= max < critical_max], and a numeric value of it in
    a reading that [check_vital_thresholds] evaluates:
    a value equal to [min] or to [max] produces no finding for that vital;
    a truthy value equal to [critical_min] produces the below-normal finding
    alone (no critically-low one), and a truthy value equal to
    [critical_max] produces the above-normal finding alone (none for oxygen
    saturation, which has no upper checks), all comparisons being strict;
    a truthy value strictly below [min] produces the below-normal (medium)
    finding and, when also strictly below [critical_min], the critically-low
    (high) finding right after it.  With the default ranges, heart rate 39
    yields exactly below normal at 60, then critically low at 40. *)
Theorem band_comparisons_are_strict (vital_ranges : VitalRanges) (k : ScalarVital)
  (patient_data : Reading) (v : pyval) (n : pynum) (l : list Finding) :
  bands_ordered (range_of vital_ranges k) = true →
  patient_data !! key k = Some v →
  as_num v = Some n →
  check_vital_thresholds vital_ranges patient_data = Ok l →
  let range := range_of vital_ranges k in
  (num_eq n (r_min range) = true ∨ num_eq n (r_max range) = true →
   findings_for (key k) l = [])
  ∧ (truthy v = true → num_eq n (critical_min range) = true →
     findings_for (key k) l
     = [mkFinding (key k) v "below normal" (r_min range) "medium"])
  ∧ (truthy v = true → num_eq n (critical_max range) = true →
     findings_for (key k) l
     = if has_upper_checks k
       then [mkFinding (key k) v "above normal" (r_max range) "medium"]
       else [])
  ∧ (truthy v = true → num_lt n (r_min range) = true →
     findings_for (key k) l
     = mkFinding (key k) v "below normal" (r_min range) "medium"
       :: (if num_lt n (critical_min range)
           then [mkFinding (key k) v "critically low" (critical_min range) "high"]
           else []))
  ∧ check_vital_thresholds VITAL_RANGES (reading_of [("heart_rate", PyInt 39)])
    = Ok [ mkFinding "heart_rate" (PyInt 39) "below normal" (NInt 60) "medium";
           mkFinding "heart_rate" (PyInt 39) "critically low" (NInt 40) "high" ].
Proof.
  intros Hbands Hv Hn Hl range. subst range.
  apply (findings_for_scalar k) in Hl.
  split_and!.
  - intros Hat. destruct (truthy v) eqn:Ht.
    + rewrite (scalar_findings_value _ _ _ _ _ Hv Hn Ht) in Hl.
      injection Hl as <-.
      unfold band_findings, normal_findings, critical_findings, low_band_findings.
        destruct Hat as [Hat|Hat].
      * destruct (comparisons_at_min _ _ Hbands Hat) as (-> & -> & -> & ->).
        by destruct (has_upper_checks k).
      * destruct (comparisons_at_max _ _ Hbands Hat) as (-> & -> & -> & ->).
        by destruct (has_upper_checks k).
    + rewrite (scalar_findings_falsy _ _ _ _ Hv Ht) in Hl. by injection Hl as <-.
  - intros Ht Hat.
    rewrite (scalar_findings_value _ _ _ _ _ Hv Hn Ht) in Hl.
    injection Hl as <-.
    unfold band_findings, normal_findings, critical_findings, low_band_findings.
    destruct (comparisons_at_critical_min _ _ Hbands Hat) as (-> & -> & ->).
    by destruct (has_upper_checks k).
  - intros Ht Hat.
    rewrite (scalar_findings_value _ _ _ _ _ Hv Hn Ht) in Hl.
    injection Hl as <-.
    unfold band_findings, normal_findings, critical_findings, low_band_findings.
    destruct (comparisons_at_critical_max _ _ Hbands Hat) as (-> & -> & -> & ->).
    by destruct (has_upper_checks k).
  - intros Ht Hlt.
    rewrite (scalar_findings_value _ _ _ _ _ Hv Hn Ht) in Hl.
    injection Hl as <-.
    unfold band_findings, normal_findings, critical_findings, low_band_findings.
    rewrite Hlt, (comparisons_below_min _ _ Hbands Hlt).
    by destruct (has_upper_checks k), (num_lt n (critical_min _)).
  - vm_compute. reflexivity.
Qed.

Lemma band_comparisons_are_strict_witness :
  findings_for "heart_rate"
    [mkFinding "heart_rate" (PyInt 40) "below normal" (NInt 60) "medium"]
  = [mkFinding "heart_rate" (PyInt 40) "below normal" (NInt 60) "medium"].
Proof.
  refine (proj1 (proj2 (band_comparisons_are_strict VITAL_RANGES HeartRate
    (reading_of [("heart_rate", PyInt 40)]) (PyInt 40) (NInt 40)
    [mkFinding "heart_rate" (PyInt 40) "below normal" (NInt 60) "medium"]
    _ _ _ _)) _ _); vm_compute; reflexivity.
Defined.

(** C2 (counterexample).  An oxygen saturation above the configured maximum
    (101 against 100) produces no finding: the oxygen block has no upper
    checks. *)
Lemma oxygen_saturation_above_max_no_finding :
  check_vital_thresholds VITAL_RANGES (reading_of [("oxygen_saturation", PyInt 101)])
  = Ok [].
Proof. vm_compute. reflexivity. Qed.

Lemma low_band_findings_reasons (name : string) (v : pyval) (n : pynum)
  (range : VitalRange) :
  Forall (λ f, reason f = "below normal" ∨ reason f = "critically low")
    (low_band_findings name v n range).
Proof.
  unfold low_band_findings.
  destruct (num_lt n (r_min range)), (num_lt n (critical_min range)); simpl;
    repeat (apply Forall_cons; split; [simpl; auto|]); apply Forall_nil_2.
Qed.

(** C2 (amended).  In every list [check_vital_thresholds] returns, the
    oxygen-saturation findings are below-band findings only (below normal,
    critically low): no above-normal or critically-high finding is ever
    emitted for oxygen saturation, whatever its value.  The above-band
    checks are applied to heart rate, temperature and respiratory rate: a
    truthy numeric value strictly above [max] (with [min <= max]) yields the
    above-normal finding, severity medium, threshold [max], followed by
    that vital's critical-band finding; when the value is also strictly
    above [critical_max] (with [critical_min <= critical_max]) that is the
    critically-high finding, severity high. *)
Theorem oxygen_saturation_has_no_upper_checks (vital_ranges : VitalRanges)
  (patient_data : Reading) (l : list Finding) :
  check_vital_thresholds vital_ranges patient_data = Ok l →
  Forall (λ f, reason f = "below normal" ∨ reason f = "critically low")
    (findings_for "oxygen_saturation" l)
  ∧ (∀ k v n,
       has_upper_checks k = true →
       patient_data !! key k = Some v → truthy v = true → as_num v = Some n →
       let range := range_of vital_ranges k in
       num_le (r_min range) (r_max range) = true →
       num_lt (r_max range) n = true →
       findings_for (key k) l
       = mkFinding (key k) v "above normal" (r_max range) "medium"
         :: critical_findings (key k) v n range
       ∧ (num_le (critical_min range) (critical_max range) = true →
          num_lt (critical_max range) n = true →
          findings_for (key k) l
          = [ mkFinding (key k) v "above normal" (r_max range) "medium";
              mkFinding (key k) v "critically high" (critical_max range) "high" ])).
Proof.
  intros Hl. split.
  - apply (findings_for_scalar OxygenSaturation) in Hl.
    unfold scalar_findings in Hl. cbv zeta in Hl. simpl in Hl.
    destruct (truthy _); [|by injection Hl as <-].
    destruct (as_num _); [|done]. injection Hl as <-.
    apply low_band_findings_reasons.
  - intros k v n Hup Hv Ht Hn range Hmm Hgt. subst range.
    apply (findings_for_scalar k) in Hl.
    rewrite (scalar_findings_value _ _ _ _ _ Hv Hn Ht), Hup in Hl.
    injection Hl as <-.
    assert (Hnot : num_lt n (r_min (range_of vital_ranges k)) = false).
    { apply num_lt_asym. by eapply num_le_lt_trans. }
    unfold band_findings, normal_findings. rewrite Hnot, Hgt.
    split; [done|].
    intros Hcc Hcgt. unfold critical_findings. rewrite Hcgt.
    assert (num_lt n (critical_min (range_of vital_ranges k)) = false) as ->; [|done].
    apply num_lt_asym. by eapply num_le_lt_trans.
Qed.

Lemma oxygen_saturation_has_no_upper_checks_witness :
  Forall (λ f, reason f = "below normal" ∨ reason f = "critically low")
    (findings_for "oxygen_saturation"
       [ mkFinding "heart_rate" (PyInt 135) "above normal" (NInt 100) "medium";
         mkFinding "heart_rate" (PyInt 135) "critically high" (NInt 130) "high" ]).
Proof.
  apply (oxygen_saturation_has_no_upper_checks VITAL_RANGES
           (reading_of [("heart_rate", PyInt 135); ("oxygen_saturation", PyInt 101)])).
  vm_compute. reflexivity.
Defined.

(** ** Properties of the alert level *)

Lemma ALERT_LEVELS_get_level_name (a : AlertLevel) :
  ALERT_LEVELS_get (level_name a) = level_rank a.
Proof. by destruct a. Qed.

Lemma level_max_comm (a b : AlertLevel) : level_max a b = level_max b a.
Proof. by destruct a, b. Qed.

Lemma level_max_assoc (a b c : AlertLevel) :
  level_max a (level_max b c) = level_max (level_max a b) c.
Proof. by destruct a, b, c. Qed.

Lemma level_max_LOW_l (a : AlertLevel) : level_max LOW a = a.
Proof. by destruct a. Qed.

Lemma level_max_LOW_r (a : AlertLevel) : level_max a LOW = a.
Proof. by destruct a. Qed.

Lemma level_max_rank (a b : AlertLevel) :
  level_rank (level_max a b) = Z.max (level_rank a) (level_rank b).
Proof. by destruct a, b. Qed.

Lemma level_max_cases (a b : AlertLevel) : level_max a b = a ∨ level_max a b = b.
Proof. destruct a, b; auto. Qed.

(** One turn of the loop takes the maximum of the running level and the
    level the severity names. *)
Lemma raise_level_max (a : AlertLevel) (f : Finding) :
  raise_level (level_name a) f
  = level_name (level_max a (severity_to_level (severity f))).
Proof.
  unfold raise_level, severity_to_level. cbv zeta.
  rewrite ALERT_LEVELS_get_level_name. unfold ALERT_LEVELS_get.
  destruct (String.eqb_spec (upper (severity f)) "LOW") as [->|_];
    [by destruct a|].
  destruct (String.eqb_spec (upper (severity f)) "MEDIUM") as [->|_];
    [by destruct a|].
  destruct (String.eqb_spec (upper (severity f)) "HIGH") as [->|_];
    [by destruct a|].
  destruct (String.eqb_spec (upper (severity f)) "CRITICAL") as [->|_];
    by destruct a.
Qed.

Lemma fold_raise_level (l : list Finding) (a : AlertLevel) :
  fold_left raise_level l (level_name a) = level_name (level_max a (max_level l)).
Proof.
  revert a. induction l as [|f l IH]; intros a.
  - simpl. by rewrite level_max_LOW_r.
  - simpl. rewrite raise_level_max, IH. unfold max_level. simpl.
    by rewrite level_max_assoc.
Qed.

Lemma overall_alert_level_max (l : list Finding) :
  overall_alert_level l = level_name (max_level l).
Proof.
  unfold overall_alert_level. change "LOW" with (level_name LOW).
  by rewrite fold_raise_level, level_max_LOW_l.
Qed.

Lemma max_level_permutation (l l' : list Finding) :
  l ≡ₚ l' → max_level l = max_level l'.
Proof.
  unfold max_level. induction 1 as [|f l l' _ IH|f g l|l1 l2 l3 _ IH1 _ IH2]; simpl.
  - done.
  - by rewrite IH.
  - by rewrite !level_max_assoc, (level_max_comm (severity_to_level (severity g))).
  - by rewrite IH1.
Qed.

Lemma max_level_upper_bound (l : list Finding) (f : Finding) :
  f ∈ l → level_rank (severity_to_level (severity f)) ≤ level_rank (max_level l).
Proof.
  unfold max_level. induction l as [|g l IH]; [by intros ?%elem_of_nil|].
  simpl. rewrite level_max_rank. intros [->|Hin%IH]%elem_of_cons; lia.
Qed.

Lemma max_level_attained (l : list Finding) :
  l ≠ [] → ∃ f, f ∈ l ∧ severity_to_level (severity f) = max_level l.
Proof.
  induction l as [|g l IH]; [done|]. intros _.
  destruct l as [|h l].
  - exists g. split; [by left|]. unfold max_level. simpl. by rewrite level_max_LOW_r.
  - destruct IH as (f & Hin & Hf); [done|].
    change (max_level (g :: h :: l))
      with (level_max (severity_to_level (severity g)) (max_level (h :: l))).
    destruct (level_max_cases (severity_to_level (severity g)) (max_level (h :: l)))
      as [-> | ->].
    + exists g. split; [by left|done].
    + exists f. split; [by right|done].
Qed.

Lemma process_anomalies_lookup (self : Manager) (patient_id timestamp : string)
  (vitals : Reading) (a : Finding) (rest : list Finding) :
  alert_history (process_anomalies self patient_id timestamp vitals (a :: rest))
    !! patient_id
  = Some (default [] (alert_history self !! patient_id)
          ++ [mkAlert timestamp (overall_alert_level (a :: rest)) (a :: rest) vitals])%list.
Proof.
  unfold process_anomalies. cbn [alert_history]. rewrite lookup_insert_eq.
  destruct (alert_history self !! patient_id) as [h|] eqn:Hh.
  - by rewrite Hh.
  - by rewrite lookup_insert_eq.
Qed.

Lemma process_anomalies_lookup_ne (self : Manager) (patient_id timestamp : string)
  (vitals : Reading) (l : list Finding) (other : string) :
  other ≠ patient_id →
  alert_history (process_anomalies self patient_id timestamp vitals l) !! other
  = alert_history self !! other.
Proof.
  intros Hne. unfold process_anomalies. destruct l as [|a rest]; [done|].
  cbn [alert_history]. rewrite lookup_insert_ne by done.
  destruct (alert_history self !! patient_id); [done|].
  by rewrite lookup_insert_ne.
Qed.

(** C6.  For a non-empty list of findings, the alert that
    [process_anomalies] stores (last in the patient's history) carries the
    level named by the maximum, under [LOW < MEDIUM < HIGH < CRITICAL], of
    the levels the findings' severities map to ([medium] to [MEDIUM],
    [high] to [HIGH]): the maximum bounds every finding's level and is the
    level of one of them; the level does not depend on the order of the
    findings; severities medium, high, medium give [HIGH]. *)
Theorem alert_level_is_max_severity (self : Manager) (patient_id timestamp : string)
  (vitals : Reading) (l : list Finding) :
  l ≠ [] →
  (∃ earlier,
     alert_history (process_anomalies self patient_id timestamp vitals l) !! patient_id
     = Some (earlier ++ [mkAlert timestamp (level_name (max_level l)) l vitals])%list)
  ∧ overall_alert_level l = level_name (max_level l)
  ∧ (∀ f, f ∈ l →
          level_rank (severity_to_level (severity f)) ≤ level_rank (max_level l))
  ∧ (∃ f, f ∈ l ∧ severity_to_level (severity f) = max_level l)
  ∧ (∀ l', l ≡ₚ l' → overall_alert_level l' = overall_alert_level l)
  ∧ severity_to_level "medium" = MEDIUM
  ∧ severity_to_level "high" = HIGH
  ∧ overall_alert_level
      [ mkFinding "heart_rate" (PyInt 110) "above normal" (NInt 100) "medium";
        mkFinding "temperature" (PyInt 40) "critically high" (fl (77 # 2)) "high";
        mkFinding "respiratory_rate" (PyInt 22) "above normal" (NInt 20) "medium" ]
    = "HIGH".
Proof.
  intros Hne. split_and!.
  - destruct l as [|a rest]; [done|]. eexists.
    by rewrite process_anomalies_lookup, overall_alert_level_max.
  - apply overall_alert_level_max.
  - intros f. apply max_level_upper_bound.
  - by apply max_level_attained.
  - intros l' Hperm. rewrite !overall_alert_level_max.
    by rewrite (max_level_permutation _ _ Hperm).
  - reflexivity.
  - reflexivity.
  - reflexivity.
Qed.

Lemma alert_level_is_max_severity_witness :
  overall_alert_level
    [ mkFinding "heart_rate" (PyInt 135) "critically high" (NInt 130) "high";
      mkFinding "heart_rate" (PyInt 135) "above normal" (NInt 100) "medium" ]
  = level_name
      (max_level
         [ mkFinding "heart_rate" (PyInt 135) "critically high" (NInt 130) "high";
           mkFinding "heart_rate" (PyInt 135) "above normal" (NInt 100) "medium" ]).
Proof.
  refine (proj1 (proj2 (alert_level_is_max_severity new_manager "p" "t" ∅
    [ mkFinding "heart_rate" (PyInt 135) "critically high" (NInt 130) "high";
      mkFinding "heart_rate" (PyInt 135) "above normal" (NInt 100) "medium" ] _))).
  discriminate.
Defined.

(** ** Properties of the alert history *)

Lemma process_call_history (self : Manager) (c : Call) (patient_id : string) :
  default [] (alert_history (process_call self c) !! patient_id)
  = (default [] (alert_history self !! patient_id)
     ++ (if String.eqb (call_patient_id c) patient_id then alert_of c else []))%list.
Proof.
  unfold process_call, alert_of.
  destruct (String.eqb_spec (call_patient_id c) patient_id) as [<-|Hne].
  - destruct (call_anomalies c) as [|a rest].
    + simpl. by rewrite app_nil_r.
    + by rewrite process_anomalies_lookup.
  - rewrite process_anomalies_lookup_ne by done. by rewrite app_nil_r.
Qed.

Lemma process_calls_history (calls : list Call) (self : Manager) (patient_id : string) :
  default [] (alert_history (process_calls self calls) !! patient_id)
  = (default [] (alert_history self !! patient_id) ++ recorded patient_id calls)%list.
Proof.
  revert self. induction calls as [|c calls IH]; intros self.
  - simpl. by rewrite app_nil_r.
  - change (process_calls self (c :: calls))
      with (process_calls (process_call self c) calls).
    rewrite IH, process_call_history. simpl.
    rewrite <- app_assoc. by destruct (String.eqb _ _).
Qed.

Lemma process_call_no_empty_entry (self : Manager) (c : Call) :
  no_empty_entry self → no_empty_entry (process_call self c).
Proof.
  intros Hinv pid. unfold process_call.
  destruct (decide (pid = call_patient_id c)) as [->|Hne].
  - destruct (call_anomalies c) as [|a rest]; [apply Hinv|].
    rewrite process_anomalies_lookup. intros [= H].
    by apply app_eq_nil in H as [_ ?].
  - rewrite process_anomalies_lookup_ne by done. apply Hinv.
Qed.

Lemma process_calls_no_empty_entry (calls : list Call) (self : Manager) :
  no_empty_entry self → no_empty_entry (process_calls self calls).
Proof.
  revert self. induction calls as [|c calls IH]; intros self Hinv; [done|].
  change (process_calls self (c :: calls))
    with (process_calls (process_call self c) calls).
  apply IH. by apply process_call_no_empty_entry.
Qed.

(** C7.  [process_anomalies] with an empty list returns the manager
    unchanged (history and log alike, no entry created); with a non-empty
    list it stores, for that patient, the previous sequence followed by
    exactly one new alert, and leaves every other patient's entry as it
    was; hence after any sequence of calls a patient's stored history is
    what it was before followed by the alerts recorded for that patient in
    arrival order, and, starting from a fresh manager, a patient has an
    entry exactly when an alert was recorded for them. *)
Theorem alert_history_is_append_only :
  (∀ self patient_id timestamp vitals,
     process_anomalies self patient_id timestamp vitals [] = self)
  ∧ (∀ self patient_id timestamp vitals a rest,
       alert_history (process_anomalies self patient_id timestamp vitals (a :: rest))
         !! patient_id
       = Some (default [] (alert_history self !! patient_id)
               ++ [mkAlert timestamp (overall_alert_level (a :: rest)) (a :: rest)
                     vitals])%list)
  ∧ (∀ self patient_id timestamp vitals l other,
       other ≠ patient_id →
       alert_history (process_anomalies self patient_id timestamp vitals l) !! other
       = alert_history self !! other)
  ∧ (∀ self calls patient_id,
       default [] (alert_history (process_calls self calls) !! patient_id)
       = (default [] (alert_history self !! patient_id)
          ++ recorded patient_id calls)%list)
  ∧ (∀ calls patient_id,
       alert_history (process_calls new_manager calls) !! patient_id
       = match recorded patient_id calls with
         | [] => None
         | alerts => Some alerts
         end).
Proof.
  split_and!.
  - done.
  - intros. apply process_anomalies_lookup.
  - intros. by apply process_anomalies_lookup_ne.
  - intros. apply process_calls_history.
  - intros calls pid.
    pose proof (process_calls_history calls new_manager pid) as Hh.
    assert (Hinv : no_empty_entry (process_calls new_manager calls)).
    { apply process_calls_no_empty_entry. intros p. simpl. by rewrite lookup_empty. }
    specialize (Hinv pid). simpl in Hh. rewrite lookup_empty in Hh. simpl in Hh.
    rewrite <- Hh.
    by destruct (alert_history (process_calls new_manager calls) !! pid) as [[|]|].
Qed.

Lemma slice_from_zero {A} (lst : list A) : slice_from lst 0 = lst.
Proof. unfold slice_from. simpl. by rewrite Z.min_l by lia. Qed.

Lemma slice_from_negative {A} (lst : list A) (n : Z) :
  0 < n → slice_from lst (- n) = last_n (Z.to_nat n) lst.
Proof.
  intros Hn. unfold slice_from, last_n.
  destruct (Z.ltb_spec (- n) 0) as [_|]; [|lia].
  f_equal. lia.
Qed.

(** For a positive limit, [get_patient_alerts] returns the last [limit]
    alerts in arrival order, all of them when there are fewer, and the
    empty list for a patient without an entry. *)
Lemma get_patient_alerts_positive_limit (self : Manager) (patient_id : string)
  (limit : Z) :
  0 < limit →
  get_patient_alerts self patient_id limit
  = last_n (Z.to_nat limit) (default [] (alert_history self !! patient_id)).
Proof.
  intros Hlimit. unfold get_patient_alerts.
  destruct (alert_history self !! patient_id) as [alerts|]; [|done].
  by apply slice_from_negative.
Qed.

Lemma last_n_all {A} (n : nat) (l : list A) : (length l ≤ n)%nat → last_n n l = l.
Proof. intros H. unfold last_n. by replace (length l - n)%nat with 0%nat by lia. Qed.

Lemma last_n_length {A} (n : nat) (l : list A) :
  (n ≤ length l)%nat → length (last_n n l) = n.
Proof. intros H. unfold last_n. rewrite length_drop. lia. Qed.

(** C8 (the code departs from the claim).  After three recorded alerts for
    one patient, [get_patient_alerts] with limit 2 returns the second and
    third, and a patient without an entry gets the empty list; but with
    limit 0 it returns all three alerts, whereas the last 0 alerts of the
    history are none: the slice [[-limit:]] starts at index 0 when [limit]
    is 0. *)
Theorem get_patient_alerts_limit_zero_returns_all :
  get_patient_alerts three_records "patient-1" 2 = [sample_alert "t2"; sample_alert "t3"]
  ∧ get_patient_alerts three_records "patient-2" 2 = []
  ∧ get_patient_alerts three_records "patient-1" 0
    = [sample_alert "t1"; sample_alert "t2"; sample_alert "t3"]
  ∧ last_n 0 [sample_alert "t1"; sample_alert "t2"; sample_alert "t3"] = [].
Proof. repeat split; vm_compute; reflexivity. Qed.

(** C10.  For a patient whose history is non-empty,
    [get_patient_alerts] with limit 0 returns the entire history, not an
    empty list: the slice [[-0:]] is the whole list. *)
Theorem get_patient_alerts_limit_zero (self : Manager) (patient_id : string)
  (alerts : list Alert) :
  alert_history self !! patient_id = Some alerts →
  alerts ≠ [] →
  get_patient_alerts self patient_id 0 = alerts
  ∧ get_patient_alerts self patient_id 0 ≠ [].
Proof.
  intros Hh Hne. unfold get_patient_alerts. rewrite Hh. simpl.
  by rewrite slice_from_zero.
Qed.

Lemma get_patient_alerts_limit_zero_witness :
  get_patient_alerts three_records "patient-1" 0
  = [sample_alert "t1"; sample_alert "t2"; sample_alert "t3"].
Proof.
  refine (proj1 (get_patient_alerts_limit_zero three_records "patient-1"
                   [sample_alert "t1"; sample_alert "t2"; sample_alert "t3"] _ _)).
  - vm_compute. reflexivity.
  - discriminate.
Defined.

Lemma alert_history_is_append_only_witness :
  alert_history
    (process_anomalies three_records "patient-2" "t4" ∅ [sample_finding])
    !! "patient-1"
  = Some [sample_alert "t1"; sample_alert "t2"; sample_alert "t3"].
Proof.
  rewrite (proj1 (proj2 (proj2 alert_history_is_append_only))
             three_records "patient-2" "t4" ∅ [sample_finding] "patient-1")
    by discriminate.
  vm_compute. reflexivity.
Defined.

(** ** Further properties of [check_vital_thresholds] *)

Lemma float_eq_trans (a b c : pyfloat) :
  float_eq a b = true → float_eq b c = true → float_eq a c = true.
Proof. intros; float_cases. Qed.

Lemma num_le_trans (a b c : pynum) :
  num_le a b = true → num_le b c = true → num_le a c = true.
Proof.
  unfold num_le at 1 2. intros [H1|H1]%orb_true_iff [H2|H2]%orb_true_iff.
  - unfold num_le. by rewrite (num_lt_trans _ _ _ H1 H2).
  - unfold num_le. by rewrite <- (num_eq_lt_r _ _ _ H2), H1.
  - unfold num_le. by rewrite (num_eq_lt_l _ _ _ H1), H2.
  - unfold num_le, num_eq in *. rewrite (float_eq_trans _ _ _ H1 H2).
    apply orb_true_r.
Qed.

Lemma num_lt_ints (a b : Z) : num_lt (NInt a) (NInt b) = (a <? b).
Proof. unfold num_lt, float_of_num, float_lt, Qlt_bool. simpl. by rewrite !Z.mul_1_r. Qed.

(** A returned list, block by block. *)
Lemma check_vital_thresholds_inv (vital_ranges : VitalRanges) (patient_data : Reading)
  (l : list Finding) :
  check_vital_thresholds vital_ranges patient_data = Ok l →
  ∃ hr temp ox rr bp,
    scalar_findings HeartRate vital_ranges patient_data = Ok hr
    ∧ scalar_findings Temperature vital_ranges patient_data = Ok temp
    ∧ scalar_findings OxygenSaturation vital_ranges patient_data = Ok ox
    ∧ scalar_findings RespiratoryRate vital_ranges patient_data = Ok rr
    ∧ blood_pressure_findings vital_ranges patient_data = Ok bp
    ∧ l = (hr ++ temp ++ ox ++ rr ++ bp)%list.
Proof.
  rewrite check_vital_thresholds_blocks.
  destruct (scalar_findings HeartRate _ _) as [hr|]; [|done].
  destruct (scalar_findings Temperature _ _) as [temp|]; [|done].
  destruct (scalar_findings OxygenSaturation _ _) as [ox|]; [|done].
  destruct (scalar_findings RespiratoryRate _ _) as [rr|]; [|done].
  destruct (blood_pressure_findings _ _) as [bp|]; [|done].
  intros [= <-]. by exists hr, temp, ox, rr, bp.
Qed.

(** X1.  A numeric value inside the normal band of a scalar vital, the
    critical band enclosing the normal one, yields no finding for that
    vital. *)
Theorem in_band_value_yields_no_finding (vital_ranges : VitalRanges) (k : ScalarVital)
  (patient_data : Reading) (v : pyval) (n : pynum) (l : list Finding) :
  patient_data !! key k = Some v →
  as_num v = Some n →
  check_vital_thresholds vital_ranges patient_data = Ok l →
  num_le (critical_min (range_of vital_ranges k)) (r_min (range_of vital_ranges k)) = true →
  num_le (r_min (range_of vital_ranges k)) n = true →
  num_le n (r_max (range_of vital_ranges k)) = true →
  num_le (r_max (range_of vital_ranges k)) (critical_max (range_of vital_ranges k)) = true →
  findings_for (key k) l = [].
Proof.
  intros Hv Hn Hl Hcm Hlo Hhi Hmc.
  apply (findings_for_scalar k) in Hl.
  destruct (truthy v) eqn:Ht.
  - rewrite (scalar_findings_value _ _ _ _ _ Hv Hn Ht) in Hl.
    injection Hl as <-.
    unfold band_findings, normal_findings, critical_findings, low_band_findings.
    rewrite (num_le_not_lt _ _ Hlo), (num_le_not_lt _ _ Hhi).
    rewrite (num_le_not_lt _ _ (num_le_trans _ _ _ Hcm Hlo)).
    rewrite (num_le_not_lt _ _ (num_le_trans _ _ _ Hhi Hmc)).
    by destruct (has_upper_checks k).
  - rewrite (scalar_findings_falsy _ _ _ _ Hv Ht) in Hl. by injection Hl as <-.
Qed.

Lemma in_band_value_yields_no_finding_witness :
  findings_for "temperature"
    [mkFinding "heart_rate" (PyInt 135) "above normal" (NInt 100) "medium";
     mkFinding "heart_rate" (PyInt 135) "critically high" (NInt 130) "high"]
  = [].
Proof.
  apply (in_band_value_yields_no_finding VITAL_RANGES Temperature
           (reading_of [("heart_rate", PyInt 135);
                        ("temperature", PyFloat (FFinite (37 # 1)))])
           (PyFloat (FFinite (37 # 1))) (NFloat (FFinite (37 # 1))));
    vm_compute; reflexivity.
Defined.

Lemma band_findings_crossing (name : string) (v : pyval) (n : pynum)
  (range : VitalRange) :
  as_num v = Some n → Forall (λ f, crossing f = true) (band_findings name v n range).
Proof.
  intros Hn. unfold band_findings, normal_findings, critical_findings.
  destruct (num_lt n (r_min range)) eqn:H1, (num_lt (r_max range) n) eqn:H2,
    (num_lt n (critical_min range)) eqn:H3, (num_lt (critical_max range) n) eqn:H4;
    simpl; repeat (apply Forall_cons; split); try apply Forall_nil_2;
    unfold crossing; simpl; rewrite Hn, ?H1, ?H2, ?H3, ?H4; reflexivity.
Qed.

Lemma low_band_findings_crossing (name : string) (v : pyval) (n : pynum)
  (range : VitalRange) :
  as_num v = Some n → Forall (λ f, crossing f = true) (low_band_findings name v n range).
Proof.
  intros Hn. unfold low_band_findings.
  destruct (num_lt n (r_min range)) eqn:H1, (num_lt n (critical_min range)) eqn:H3;
    simpl; repeat (apply Forall_cons; split); try apply Forall_nil_2;
    unfold crossing; simpl; rewrite Hn, ?H1, ?H3; reflexivity.
Qed.

Lemma scalar_findings_crossing (k : ScalarVital) (vital_ranges : VitalRanges)
  (patient_data : Reading) (fs : list Finding) :
  scalar_findings k vital_ranges patient_data = Ok fs →
  Forall (λ f, crossing f = true) fs.
Proof.
  unfold scalar_findings. cbv zeta.
  destruct (truthy _); [|by intros [= <-]].
  destruct (as_num _) as [n|] eqn:Hn; [|done].
  intros [= <-].
  destruct (has_upper_checks k);
    auto using band_findings_crossing, low_band_findings_crossing.
Qed.

Lemma blood_pressure_findings_crossing (vital_ranges : VitalRanges)
  (patient_data : Reading) (fs : list Finding) :
  blood_pressure_findings vital_ranges patient_data = Ok fs →
  Forall (λ f, crossing f = true) fs.
Proof.
  unfold blood_pressure_findings.
  destruct (patient_data !! "blood_pressure") as [bp|]; [|by intros [= <-]].
  destruct (parse_blood_pressure bp) as [[s d]|[]]; try done; try by intros [= <-].
  intros [= <-]. unfold parsed_pressure_findings.
  rewrite !Forall_app. split_and!.
  - by apply band_findings_crossing.
  - by apply band_findings_crossing.
  - unfold pulse_pressure_findings. destruct (50 <? s - d) eqn:Hpp; [|done].
    apply Forall_cons; split; [|done].
    unfold crossing. simpl. change (Qlt_bool 50 (inject_Z (s - d)))
      with (num_lt (NInt 50) (NInt (s - d))).
    by rewrite num_lt_ints, Hpp.
Qed.

(** X2.  Every finding [check_vital_thresholds] returns reports a real
    crossing: its value is a number strictly below its threshold when the
    reason is below normal or critically low, strictly above it when the
    reason is above normal, critically high or the pulse-pressure
    difference; and its severity is fixed by its reason (medium for the
    normal band and the pulse pressure, high for the critical band). *)
Theorem findings_report_real_crossings (vital_ranges : VitalRanges)
  (patient_data : Reading) (l : list Finding) :
  check_vital_thresholds vital_ranges patient_data = Ok l →
  Forall (λ f, crossing f = true) l.
Proof.
  intros (hr & temp & ox & rr & bp & Hhr & Htemp & Hox & Hrr & Hbp & ->)
    %check_vital_thresholds_inv.
  rewrite !Forall_app.
  eauto 10 using scalar_findings_crossing, blood_pressure_findings_crossing.
Qed.

Lemma findings_report_real_crossings_witness :
  Forall (λ f, crossing f = true)
    [mkFinding "oxygen_saturation" (PyInt 88) "below normal" (NInt 95) "medium";
     mkFinding "oxygen_saturation" (PyInt 88) "critically low" (NInt 90) "high"].
Proof.
  apply (findings_report_real_crossings VITAL_RANGES
           (reading_of [("oxygen_saturation", PyInt 88)])).
  vm_compute. reflexivity.
Defined.

Lemma same_vital_sorted (name : string) (fs : list Finding) :
  Forall (λ f, vital f = name) fs → StronglySorted vital_order fs.
Proof.
  induction 1 as [|f fs Hf Hfs IH]; constructor; [done|].
  eapply Forall_impl; [exact Hfs|]. intros g Hg. unfold vital_order.
  by rewrite Hf, Hg.
Qed.

Lemma sorted_blocks (p : nat) (a b : list Finding) :
  Forall (λ f, (vital_position (vital f) ≤ p)%nat) a →
  Forall (λ f, (p ≤ vital_position (vital f))%nat) b →
  StronglySorted vital_order a → StronglySorted vital_order b →
  StronglySorted vital_order (a ++ b).
Proof.
  intros Ha Hb Sa Sb. apply StronglySorted_app_2; [|done..].
  intros f g Hf Hg. rewrite Forall_forall in Ha, Hb.
  specialize (Ha f Hf). specialize (Hb g Hg). unfold vital_order. lia.
Qed.

Lemma same_vital_position (name : string) (fs : list Finding) :
  Forall (λ f, vital f = name) fs →
  Forall (λ f, vital_position (vital f) = vital_position name) fs.
Proof. intros H. eapply Forall_impl; [exact H|]. by intros f ->. Qed.

Lemma parsed_pressure_findings_sorted (vital_ranges : VitalRanges) (s d : Z) :
  StronglySorted vital_order (parsed_pressure_findings vital_ranges s d)
  ∧ Forall (λ f, (4 ≤ vital_position (vital f))%nat)
      (parsed_pressure_findings vital_ranges s d).
Proof.
  unfold parsed_pressure_findings.
  pose proof (band_findings_vital "blood_pressure_systolic" (PyInt s) (NInt s)
                (blood_pressure_systolic vital_ranges)) as Hs.
  pose proof (band_findings_vital "blood_pressure_diastolic" (PyInt d) (NInt d)
                (blood_pressure_diastolic vital_ranges)) as Hd.
  assert (Hp : Forall (λ f, vital f = "pulse_pressure") (pulse_pressure_findings s d)).
  { unfold pulse_pressure_findings. case_match; repeat constructor. }
  split.
  - apply (sorted_blocks 4).
    + eapply Forall_impl; [exact (same_vital_position _ _ Hs)|].
      intros f ->. vm_compute. lia.
    + rewrite Forall_app. split.
      * eapply Forall_impl; [exact (same_vital_position _ _ Hd)|].
        intros f ->. vm_compute. lia.
      * eapply Forall_impl; [exact (same_vital_position _ _ Hp)|].
        intros f ->. vm_compute. lia.
    + by eapply same_vital_sorted.
    + apply (sorted_blocks 5).
      * eapply Forall_impl; [exact (same_vital_position _ _ Hd)|].
        intros f ->. vm_compute. lia.
      * eapply Forall_impl; [exact (same_vital_position _ _ Hp)|].
        intros f ->. vm_compute. lia.
      * by eapply same_vital_sorted.
      * by eapply same_vital_sorted.
  - rewrite !Forall_app. split_and!.
    + eapply Forall_impl; [exact (same_vital_position _ _ Hs)|].
      intros f ->. vm_compute. lia.
    + eapply Forall_impl; [exact (same_vital_position _ _ Hd)|].
      intros f ->. vm_compute. lia.
    + eapply Forall_impl; [exact (same_vital_position _ _ Hp)|].
      intros f ->. vm_compute. lia.
Qed.

Lemma blood_pressure_findings_sorted (vital_ranges : VitalRanges)
  (patient_data : Reading) (fs : list Finding) :
  blood_pressure_findings vital_ranges patient_data = Ok fs →
  StronglySorted vital_order fs
  ∧ Forall (λ f, (4 ≤ vital_position (vital f))%nat) fs.
Proof.
  unfold blood_pressure_findings.
  destruct (patient_data !! "blood_pressure") as [bp|];
    [|intros [= <-]; split; constructor].
  destruct (parse_blood_pressure bp) as [[s d]|[]]; try done;
    try (intros [= <-]; split; constructor).
  intros [= <-]. apply parsed_pressure_findings_sorted.
Qed.

(** X3.  The findings [check_vital_thresholds] returns are grouped by vital
    in the fixed processing order: heart rate, temperature, oxygen
    saturation, respiratory rate, systolic pressure, diastolic pressure,
    pulse pressure; no finding of a later vital precedes one of an earlier
    vital, whatever the order of the keys in the reading. *)
Theorem findings_follow_vital_order (vital_ranges : VitalRanges)
  (patient_data : Reading) (l : list Finding) :
  check_vital_thresholds vital_ranges patient_data = Ok l →
  StronglySorted vital_order l.
Proof.
  intros (hr & temp & ox & rr & bp & Hhr & Htemp & Hox & Hrr & Hbp & ->)
    %check_vital_thresholds_inv.
  apply scalar_findings_vital in Hhr, Htemp, Hox, Hrr.
  apply blood_pressure_findings_sorted in Hbp as [Sbp Pbp].
  cbn [key] in *.
  assert (Hle : ∀ p q (fs : list Finding), (p ≤ q)%nat →
            Forall (λ f, (q ≤ vital_position (vital f))%nat) fs →
            Forall (λ f, (p ≤ vital_position (vital f))%nat) fs).
  { intros p q fs Hpq H. eapply Forall_impl; [exact H|]. intros f. simpl. lia. }
  assert (Heq : ∀ name p (fs : list Finding), vital_position name = p →
            Forall (λ f, vital f = name) fs →
            Forall (λ f, vital_position (vital f) = p) fs).
  { intros name p fs <-. apply same_vital_position. }
  pose proof (Heq "heart_rate" 0%nat _ eq_refl Hhr) as Phr.
  pose proof (Heq "temperature" 1%nat _ eq_refl Htemp) as Ptemp.
  pose proof (Heq "oxygen_saturation" 2%nat _ eq_refl Hox) as Pox.
  pose proof (Heq "respiratory_rate" 3%nat _ eq_refl Hrr) as Prr.
  apply (sorted_blocks 0).
  { eapply Forall_impl; [exact Phr|]. intros f ->. lia. }
  { rewrite !Forall_app. split_and!; try (apply (Hle 0%nat 4%nat); [lia|done]);
      (eapply Forall_impl; [eassumption|]); intros f ->; lia. }
  { by eapply same_vital_sorted. }
  apply (sorted_blocks 1).
  { eapply Forall_impl; [exact Ptemp|]. intros f ->. lia. }
  { rewrite !Forall_app. split_and!; try (apply (Hle 1%nat 4%nat); [lia|done]);
      (eapply Forall_impl; [eassumption|]); intros f ->; lia. }
  { by eapply same_vital_sorted. }
  apply (sorted_blocks 2).
  { eapply Forall_impl; [exact Pox|]. intros f ->. lia. }
  { rewrite !Forall_app. split_and!; try (apply (Hle 2%nat 4%nat); [lia|done]);
      (eapply Forall_impl; [eassumption|]); intros f ->; lia. }
  { by eapply same_vital_sorted. }
  apply (sorted_blocks 3).
  { eapply Forall_impl; [exact Prr|]. intros f ->. lia. }
  { apply (Hle 3%nat 4%nat); [lia|done]. }
  { by eapply same_vital_sorted. }
  done.
Qed.

Lemma findings_follow_vital_order_witness :
  StronglySorted vital_order
    [mkFinding "heart_rate" (PyInt 135) "above normal" (NInt 100) "medium";
     mkFinding "heart_rate" (PyInt 135) "critically high" (NInt 130) "high";
     mkFinding "pulse_pressure" (PyInt 60) "abnormal systolic-diastolic difference"
       (NInt 50) "medium"].
Proof.
  apply (findings_follow_vital_order VITAL_RANGES
           (reading_of [("blood_pressure", PyStr "120/60"); ("heart_rate", PyInt 135)])).
  vm_compute. reflexivity.
Defined.

Lemma band_findings_length (name : string) (v : pyval) (n : pynum) (range : VitalRange) :
  (length (band_findings name v n range) ≤ 2)%nat.
Proof.
  unfold band_findings, normal_findings, critical_findings.
  repeat case_match; simpl; lia.
Qed.

Lemma low_band_findings_length (name : string) (v : pyval) (n : pynum)
  (range : VitalRange) :
  (length (low_band_findings name v n range) ≤ 2)%nat.
Proof. unfold low_band_findings. repeat case_match; simpl; lia. Qed.

Lemma scalar_findings_length (k : ScalarVital) (vital_ranges : VitalRanges)
  (patient_data : Reading) (fs : list Finding) :
  scalar_findings k vital_ranges patient_data = Ok fs → (length fs ≤ 2)%nat.
Proof.
  unfold scalar_findings. cbv zeta.
  destruct (truthy _); [|intros [= <-]; simpl; lia].
  destruct (as_num _) as [n|]; [|done]. intros [= <-].
  destruct (has_upper_checks k);
    auto using band_findings_length, low_band_findings_length.
Qed.

Lemma blood_pressure_findings_length (vital_ranges : VitalRanges)
  (patient_data : Reading) (fs : list Finding) :
  blood_pressure_findings vital_ranges patient_data = Ok fs → (length fs ≤ 5)%nat.
Proof.
  unfold blood_pressure_findings.
  destruct (patient_data !! "blood_pressure") as [bp|];
    [|intros [= <-]; simpl; lia].
  destruct (parse_blood_pressure bp) as [[s d]|[]]; try done;
    try (intros [= <-]; simpl; lia).
  intros [= <-]. unfold parsed_pressure_findings. rewrite !length_app.
  pose proof (band_findings_length "blood_pressure_systolic" (PyInt s) (NInt s)
                (blood_pressure_systolic vital_ranges)).
  pose proof (band_findings_length "blood_pressure_diastolic" (PyInt d) (NInt d)
                (blood_pressure_diastolic vital_ranges)).
  unfold pulse_pressure_findings. case_match; simpl; lia.
Qed.

(** X4.  [check_vital_thresholds] returns at most thirteen findings: at
    most two for each scalar vital (one from the normal band, one from the
    critical band) and at most five from the blood pressure. *)
Theorem findings_are_bounded (vital_ranges : VitalRanges) (patient_data : Reading)
  (l : list Finding) :
  check_vital_thresholds vital_ranges patient_data = Ok l →
  (length l ≤ 13)%nat
  ∧ (∀ k, (length (findings_for (key k) l) ≤ 2)%nat)
  ∧ (length (List.filter blood_pressure_related l) ≤ 5)%nat.
Proof.
  intros Hl. split_and!.
  - apply check_vital_thresholds_inv in Hl
      as (hr & temp & ox & rr & bp & Hhr & Htemp & Hox & Hrr & Hbp & ->).
    apply scalar_findings_length in Hhr, Htemp, Hox, Hrr.
    apply blood_pressure_findings_length in Hbp.
    rewrite !length_app. lia.
  - intros k. apply (findings_for_scalar k) in Hl.
    by apply scalar_findings_length in Hl.
  - apply check_vital_thresholds_inv in Hl
      as (hr & temp & ox & rr & bp & Hhr & Htemp & Hox & Hrr & Hbp & ->).
    assert (Hnone : ∀ k fs, scalar_findings k vital_ranges patient_data = Ok fs →
              List.filter blood_pressure_related fs = []).
    { intros k fs H%scalar_findings_unrelated.
      induction H as [|f fs Hf _ IH]; [done|]. simpl. by rewrite Hf. }
    rewrite !List.filter_app.
    rewrite (Hnone _ _ Hhr), (Hnone _ _ Htemp), (Hnone _ _ Hox), (Hnone _ _ Hrr).
    simpl. apply blood_pressure_findings_length in Hbp.
    pose proof (List.filter_length_le blood_pressure_related bp). lia.
Qed.

Lemma findings_are_bounded_witness :
  (length [mkFinding "heart_rate" (PyInt 39) "below normal" (NInt 60) "medium";
           mkFinding "heart_rate" (PyInt 39) "critically low" (NInt 40) "high"]
   ≤ 13)%nat.
Proof.
  apply (findings_are_bounded VITAL_RANGES (reading_of [("heart_rate", PyInt 39)])).
  vm_compute. reflexivity.
Defined.

Lemma scalar_findings_cases (k : ScalarVital) (vital_ranges : VitalRanges)
  (patient_data : Reading) :
  (scalar_ok (dict_get patient_data (key k)) = true
   ∧ ∃ fs, scalar_findings k vital_ranges patient_data = Ok fs)
  ∨ (scalar_ok (dict_get patient_data (key k)) = false
     ∧ scalar_findings k vital_ranges patient_data = Raise TypeError).
Proof.
  unfold scalar_ok, scalar_findings. cbv zeta.
  destruct (truthy _); simpl; [|by eauto].
  destruct (as_num _); by eauto.
Qed.

Lemma blood_pressure_findings_cases (vital_ranges : VitalRanges) (patient_data : Reading) :
  (blood_pressure_ok patient_data = true
   ∧ ∃ fs, blood_pressure_findings vital_ranges patient_data = Ok fs)
  ∨ (blood_pressure_ok patient_data = false
     ∧ blood_pressure_findings vital_ranges patient_data = Raise AttributeError).
Proof.
  destruct (blood_pressure_ok patient_data) eqn:Hok.
  - left. split; [done|]. by apply blood_pressure_findings_ok.
  - right. split; [done|]. revert Hok.
    unfold blood_pressure_ok, blood_pressure_findings.
    by destruct (patient_data !! "blood_pressure") as [[| | | |s| |]|].
Qed.

(** X5.  The only exceptions [check_vital_thresholds] lets escape are
    [TypeError], exactly when some scalar vital is truthy and not a number,
    and [AttributeError], exactly when the scalar vitals are fine and the
    blood pressure is present and not a string.  It never raises
    [ValueError] or [IndexError]: those are caught by its [try]. *)
Theorem escaping_exceptions (vital_ranges : VitalRanges) (patient_data : Reading) :
  (check_vital_thresholds vital_ranges patient_data = Raise TypeError
   ↔ scalars_ok patient_data = false)
  ∧ (check_vital_thresholds vital_ranges patient_data = Raise AttributeError
     ↔ scalars_ok patient_data = true ∧ blood_pressure_ok patient_data = false)
  ∧ check_vital_thresholds vital_ranges patient_data ≠ Raise ValueError
  ∧ check_vital_thresholds vital_ranges patient_data ≠ Raise IndexError.
Proof.
  rewrite check_vital_thresholds_blocks. unfold scalars_ok. cbn [forallb].
  destruct (scalar_findings_cases HeartRate vital_ranges patient_data)
    as [[-> [hr ->]]|[-> ->]];
  destruct (scalar_findings_cases Temperature vital_ranges patient_data)
    as [[-> [temp ->]]|[-> ->]];
  destruct (scalar_findings_cases OxygenSaturation vital_ranges patient_data)
    as [[-> [ox ->]]|[-> ->]];
  destruct (scalar_findings_cases RespiratoryRate vital_ranges patient_data)
    as [[-> [rr ->]]|[-> ->]];
  destruct (blood_pressure_findings_cases vital_ranges patient_data)
    as [[-> [bp ->]]|[-> ->]];
  simpl; split_and!; try split; try done; intros []; done.
Qed.

Lemma dict_get_insert_ne (patient_data : Reading) (k k' : string) (v : pyval) :
  k ≠ k' → dict_get (<[k := v]> patient_data) k' = dict_get patient_data k'.
Proof. intros Hne. unfold dict_get. by rewrite lookup_insert_ne. Qed.

(** Two readings that agree on the five keys the detector reads get the
    same result. *)
Lemma check_vital_thresholds_ext (vital_ranges : VitalRanges) (r1 r2 : Reading) :
  (∀ k, k ∈ detector_keys → r1 !! k = r2 !! k) →
  check_vital_thresholds vital_ranges r1 = check_vital_thresholds vital_ranges r2.
Proof.
  intros Hagree. rewrite !check_vital_thresholds_blocks.
  assert (Hs : ∀ k, scalar_findings k vital_ranges r1 = scalar_findings k vital_ranges r2).
  { intros k. unfold scalar_findings, dict_get. rewrite Hagree; [done|].
    unfold detector_keys. destruct k; set_solver. }
  rewrite !Hs. unfold blood_pressure_findings.
  rewrite (Hagree "blood_pressure"); [done|]. unfold detector_keys. set_solver.
Qed.

(** X6.  Keys other than the five the detector reads ([heart_rate],
    [temperature], [oxygen_saturation], [respiratory_rate],
    [blood_pressure]) are never evaluated: setting or removing any other
    key of a reading, whatever its value, leaves the outcome of
    [check_vital_thresholds] unchanged. *)
Theorem other_keys_are_never_evaluated (vital_ranges : VitalRanges)
  (patient_data : Reading) (k : string) (v : pyval) :
  k ∉ detector_keys →
  check_vital_thresholds vital_ranges (<[k := v]> patient_data)
  = check_vital_thresholds vital_ranges patient_data
  ∧ check_vital_thresholds vital_ranges (delete k patient_data)
    = check_vital_thresholds vital_ranges patient_data.
Proof.
  intros Hk. split; apply check_vital_thresholds_ext; intros k' Hk'.
  - apply lookup_insert_ne. by intros ->.
  - apply lookup_delete_ne. by intros ->.
Qed.

Lemma other_keys_are_never_evaluated_witness :
  check_vital_thresholds VITAL_RANGES
    (<["blood_pressure_systolic" := PyStr "very high"]>
       (reading_of [("heart_rate", PyInt 39)]))
  = check_vital_thresholds VITAL_RANGES (reading_of [("heart_rate", PyInt 39)]).
Proof.
  apply (other_keys_are_never_evaluated VITAL_RANGES
           (reading_of [("heart_rate", PyInt 39)]) "blood_pressure_systolic"
           (PyStr "very high")).
  unfold detector_keys. rewrite !not_elem_of_cons. split_and!; try discriminate.
  apply not_elem_of_nil.
Defined.

Lemma str_split_slash_free (s : string) :
  slash_free s = true → str_split "/" s = [s].
Proof.
  induction s as [|c s IH]; [done|]. simpl.
  intros [Hc Hs]%andb_true_iff. apply negb_true_iff in Hc. rewrite Hc.
  by rewrite (IH Hs).
Qed.

Lemma str_split_app (a t : string) :
  slash_free a = true →
  str_split "/" (a ++ String "/" t) = a :: str_split "/" t.
Proof.
  induction a as [|c a IH]; [done|]. simpl.
  intros [Hc Ha]%andb_true_iff. apply negb_true_iff in Hc. rewrite Hc.
  by rewrite (IH Ha).
Qed.

(** X7.  Only the first two slash-separated parts of a blood-pressure
    string are read: whatever follows a second slash is ignored, by the
    parse and hence by [check_vital_thresholds]. *)
Theorem parts_after_second_slash_are_ignored (vital_ranges : VitalRanges)
  (patient_data : Reading) (a b rest : string) :
  slash_free a = true →
  slash_free b = true →
  parse_blood_pressure (PyStr (a ++ "/" ++ b ++ "/" ++ rest))
  = parse_blood_pressure (PyStr (a ++ "/" ++ b))
  ∧ check_vital_thresholds vital_ranges
      (<["blood_pressure" := PyStr (a ++ "/" ++ b ++ "/" ++ rest)]> patient_data)
    = check_vital_thresholds vital_ranges
        (<["blood_pressure" := PyStr (a ++ "/" ++ b)]> patient_data).
Proof.
  intros Ha Hb.
  assert (Hparse : parse_blood_pressure (PyStr (a ++ "/" ++ b ++ "/" ++ rest))
                   = parse_blood_pressure (PyStr (a ++ "/" ++ b))).
  { unfold parse_blood_pressure, split_slash.
    change ("/" ++ b ++ "/" ++ rest) with (String "/" (b ++ String "/" rest)).
    change ("/" ++ b) with (String "/" b).
    rewrite !(str_split_app a) by done.
    rewrite (str_split_app b) by done.
    by rewrite (str_split_slash_free b). }
  split; [done|].
  rewrite !check_vital_thresholds_blocks.
  assert (Hs : ∀ k s,
            scalar_findings k vital_ranges (<["blood_pressure" := PyStr s]> patient_data)
            = scalar_findings k vital_ranges patient_data).
  { intros k s. unfold scalar_findings. rewrite dict_get_insert_ne; [done|].
    by destruct k. }
  rewrite !Hs. unfold blood_pressure_findings.
  by rewrite !lookup_insert_eq, Hparse.
Qed.

Lemma parts_after_second_slash_are_ignored_witness :
  parse_blood_pressure (PyStr ("120" ++ "/" ++ "80" ++ "/" ++ "mmHg/x"))
  = parse_blood_pressure (PyStr ("120" ++ "/" ++ "80")).
Proof.
  apply (parts_after_second_slash_are_ignored VITAL_RANGES ∅ "120" "80" "mmHg/x");
    reflexivity.
Defined.

(** X8.  When the blood pressure parses to [systolic] and [diastolic], the
    pulse-pressure finding is present exactly when
    [systolic - diastolic > 50]; it carries the difference as its value and
    50 as its threshold, and it is the last finding of the list. *)
Theorem pulse_pressure_reported_iff_wide (vital_ranges : VitalRanges) (patient_data : Reading)
  (bp : pyval) (systolic diastolic : Z) (l : list Finding) :
  patient_data !! "blood_pressure" = Some bp →
  parse_blood_pressure bp = Ok (systolic, diastolic) →
  check_vital_thresholds vital_ranges patient_data = Ok l →
  findings_for "pulse_pressure" l
  = (if 50 <? systolic - diastolic
     then [mkFinding "pulse_pressure" (PyInt (systolic - diastolic))
             "abnormal systolic-diastolic difference" (NInt 50) "medium"]
     else [])
  ∧ (50 < systolic - diastolic →
     last l = Some (mkFinding "pulse_pressure" (PyInt (systolic - diastolic))
                      "abnormal systolic-diastolic difference" (NInt 50) "medium")).
Proof.
  intros Hbp Hparse
    (hr & temp & ox & rr & bpf & Hhr & Htemp & Hox & Hrr & Hbpf & ->)
    %check_vital_thresholds_inv.
  unfold blood_pressure_findings in Hbpf. rewrite Hbp, Hparse in Hbpf.
  injection Hbpf as <-.
  apply scalar_findings_vital in Hhr, Htemp, Hox, Hrr. cbn [key] in *.
  split.
  - rewrite !findings_for_app.
    rewrite (findings_for_other _ _ hr Hhr) by done.
    rewrite (findings_for_other _ _ temp Htemp) by done.
    rewrite (findings_for_other _ _ ox Hox) by done.
    rewrite (findings_for_other _ _ rr Hrr) by done.
    unfold parsed_pressure_findings. rewrite !findings_for_app.
    rewrite (findings_for_other _ _ _ (band_findings_vital _ _ _ _)) by done.
    rewrite (findings_for_other _ _ _ (band_findings_vital _ _ _ _)) by done.
    simpl. unfold pulse_pressure_findings. by case_match.
  - intros Hgt. unfold parsed_pressure_findings, pulse_pressure_findings.
    destruct (Z.ltb_spec 50 (systolic - diastolic)) as [_|]; [|lia].
    rewrite !app_assoc. by rewrite last_snoc.
Qed.

Lemma pulse_pressure_reported_iff_wide_witness :
  findings_for "pulse_pressure"
    [mkFinding "blood_pressure_diastolic" (PyInt 59) "below normal" (NInt 60) "medium";
     mkFinding "pulse_pressure" (PyInt 61) "abnormal systolic-diastolic difference"
       (NInt 50) "medium"]
  = [mkFinding "pulse_pressure" (PyInt (120 - 59))
       "abnormal systolic-diastolic difference" (NInt 50) "medium"].
Proof.
  apply (pulse_pressure_reported_iff_wide VITAL_RANGES
           (reading_of [("blood_pressure", PyStr "120/59")]) (PyStr "120/59") 120 59);
    vm_compute; reflexivity.
Defined.


(** ** The simulator's blood-pressure string is read back by the detector *)

Lemma digit_cases (d : Z) :
  0 ≤ d < 10 →
  d = 0 ∨ d = 1 ∨ d = 2 ∨ d = 3 ∨ d = 4 ∨ d = 5 ∨ d = 6 ∨ d = 7 ∨ d = 8 ∨ d = 9.
Proof. lia. Qed.

Ltac each_digit H :=
  destruct (digit_cases _ H) as [->|[->|[->|[->|[->|[->|[->|[->|[->| ->]]]]]]]]].

Lemma digits_from_digit (d : Z) (rest : string) (b : bool) (a : Z) :
  0 ≤ d < 10 →
  digits_from (String (digit_char d) rest) b a = digits_from rest true (10 * a + d).
Proof. intros H. each_digit H; reflexivity. Qed.

Lemma digit_char_plain (d : Z) (rest : string) :
  0 ≤ d < 10 →
  space_free (String (digit_char d) rest) = space_free rest
  ∧ slash_free (String (digit_char d) rest) = slash_free rest.
Proof. intros H. each_digit H; split; reflexivity. Qed.

Lemma mod_10_digit (n : Z) : 0 ≤ n mod 10 < 10.
Proof. apply Z.mod_pos_bound. lia. Qed.

Lemma digits_onto_step (fuel : nat) (n : Z) (acc : string) :
  digits_onto (S fuel) n acc
  = if n / 10 =? 0 then String (digit_char (n mod 10)) acc
    else digits_onto fuel (n / 10) (String (digit_char (n mod 10)) acc).
Proof. reflexivity. Qed.

(** Reading the digits written for [n] continues as if [n] had been
    accumulated. *)
Lemma digits_from_digits_onto (fuel : nat) :
  ∀ (n : Z) (acc : string),
    0 ≤ n → (Z.to_nat n < fuel)%nat →
    ∃ m, ∀ a b,
      digits_from (digits_onto fuel n acc) b a = digits_from acc true (a * m + n).
Proof.
  induction fuel as [|fuel IH]; intros n acc Hn Hfuel; [lia|].
  rewrite digits_onto_step. destruct (Z.eqb_spec (n / 10) 0) as [Hq|Hq].
  - exists 10. intros a b.
    rewrite (digits_from_digit _ _ _ _ (mod_10_digit n)).
    f_equal. pose proof (Z.div_mod n 10). lia.
  - assert (Hdiv : 0 < n / 10 < n).
    { pose proof (Z.div_mod n 10). pose proof (mod_10_digit n).
      assert (0 ≤ n / 10) by (apply Z.div_pos; lia). lia. }
    destruct (IH (n / 10) (String (digit_char (n mod 10)) acc)) as [m Hm];
      [lia|lia|].
    exists (10 * m). intros a b. rewrite Hm.
    rewrite (digits_from_digit _ _ _ _ (mod_10_digit n)).
    f_equal. pose proof (Z.div_mod n 10). lia.
Qed.

Lemma digits_onto_head (fuel : nat) :
  ∀ (n : Z) (acc : string),
    ∃ d rest, 0 ≤ d < 10 ∧ digits_onto (S fuel) n acc = String (digit_char d) rest.
Proof.
  induction fuel as [|fuel IH]; intros n acc; rewrite digits_onto_step.
  - exists (n mod 10), acc. split; [apply mod_10_digit|].
    by destruct (n / 10 =? 0).
  - destruct (n / 10 =? 0).
    + exists (n mod 10), acc. split; [apply mod_10_digit|done].
    + apply IH.
Qed.

Lemma digits_onto_plain (fuel : nat) :
  ∀ (n : Z) (acc : string),
    space_free (digits_onto fuel n acc) = space_free acc
    ∧ slash_free (digits_onto fuel n acc) = slash_free acc.
Proof.
  induction fuel as [|fuel IH]; intros n acc; [done|].
  rewrite digits_onto_step.
  destruct (digit_char_plain _ acc (mod_10_digit n)) as [Hs Hl].
  destruct (n / 10 =? 0); [done|].
  destruct (IH (n / 10) (String (digit_char (n mod 10)) acc)) as [-> ->]. done.
Qed.

Lemma py_str_int_plain (z : Z) :
  space_free (py_str_int z) = true ∧ slash_free (py_str_int z) = true.
Proof.
  unfold py_str_int. destruct (z <? 0).
  - generalize (digits_onto_plain (S (Z.to_nat (- z))) (- z) "").
    generalize (digits_onto (S (Z.to_nat (- z))) (- z) ""). intros s [Hs Hl].
    cbn [space_free slash_free]. rewrite Hs, Hl. done.
  - by destruct (digits_onto_plain (S (Z.to_nat z)) z "") as [-> ->].
Qed.

Lemma lstrip_space_free (s : string) : space_free s = true → lstrip s = s.
Proof.
  destruct s as [|c s]; [done|]. simpl.
  intros [Hc _]%andb_true_iff. apply negb_true_iff in Hc. by rewrite Hc.
Qed.

Lemma str_rev_onto_space_free (s acc : string) :
  space_free (str_rev_onto s acc) = space_free s && space_free acc.
Proof.
  revert acc. induction s as [|c s IH]; intros acc; [done|].
  simpl. rewrite IH. simpl. by destruct (is_space c), (space_free s).
Qed.

Lemma str_rev_onto_twice (s acc acc' : string) :
  str_rev_onto (str_rev_onto s acc) acc' = str_rev_onto acc (s ++ acc').
Proof.
  revert acc acc'. induction s as [|c s IH]; intros acc acc'; [done|].
  simpl. by rewrite IH.
Qed.

Lemma strip_space_free (s : string) : space_free s = true → strip s = s.
Proof.
  intros Hs. unfold strip, str_rev.
  rewrite (lstrip_space_free s Hs).
  rewrite lstrip_space_free by (by rewrite str_rev_onto_space_free, Hs).
  rewrite str_rev_onto_twice. cbn [str_rev_onto].
  clear Hs. induction s as [|c s IH]; [done|].
  change (String c s ++ "") with (String c (s ++ "")). by rewrite IH.
Qed.

Lemma py_int_minus (s : string) :
  space_free s = true →
  py_int (String "-" s)
  = match digits_from s false 0 with
    | Some n => Ok (- n)
    | None => Raise ValueError
    end.
Proof.
  intros Hs. unfold py_int. rewrite strip_space_free by (simpl; by rewrite Hs).
  by destruct (digits_from s false 0).
Qed.

Lemma py_int_digits (d : Z) (rest : string) :
  0 ≤ d < 10 → space_free rest = true →
  py_int (String (digit_char d) rest)
  = match digits_from (String (digit_char d) rest) false 0 with
    | Some n => Ok n
    | None => Raise ValueError
    end.
Proof.
  intros Hd Hs. unfold py_int.
  rewrite strip_space_free
    by (by rewrite (proj1 (digit_char_plain d rest Hd))).
  each_digit Hd; reflexivity.
Qed.

(** [int(str(z))] is [z]. *)
Lemma py_int_py_str_int (z : Z) : py_int (py_str_int z) = Ok z.
Proof.
  unfold py_str_int. destruct (Z.ltb_spec z 0) as [Hneg|Hpos].
  - rewrite py_int_minus by (by rewrite (proj1 (digits_onto_plain _ _ _))).
    destruct (digits_from_digits_onto (S (Z.to_nat (- z))) (- z) "") as [m Hm];
      [lia|lia|].
    rewrite Hm. cbn [digits_from]. f_equal. lia.
  - destruct (digits_onto_head (Z.to_nat z) z "") as (d & rest & Hd & Hhead).
    destruct (digits_from_digits_onto (S (Z.to_nat z)) z "") as [m Hm]; [lia|lia|].
    pose proof (proj1 (digits_onto_plain (S (Z.to_nat z)) z "")) as Hplain.
    specialize (Hm 0 false). rewrite Hhead in Hm, Hplain.
    rewrite Hhead, py_int_digits, Hm; [done|done|].
    by rewrite (proj1 (digit_char_plain d rest Hd)) in Hplain.
Qed.

(** X9.  The blood-pressure string the simulator writes for two finite
    pressures is parsed back by the detector to exactly the two integers
    the simulator truncated them to, negative ones included. *)
Theorem simulated_blood_pressure_parses_back (systolic diastolic : Q) :
  parse_blood_pressure (PyStr (bp_str systolic diastolic))
  = Ok (py_int_of_float systolic, py_int_of_float diastolic).
Proof.
  unfold bp_str, parse_blood_pressure, split_slash.
  generalize (py_int_py_str_int (py_int_of_float systolic)).
  generalize (py_int_py_str_int (py_int_of_float diastolic)).
  generalize (py_str_int_plain (py_int_of_float systolic)).
  generalize (py_str_int_plain (py_int_of_float diastolic)).
  generalize (py_str_int (py_int_of_float systolic)).
  generalize (py_str_int (py_int_of_float diastolic)).
  intros d s [_ Hd] [_ Hs] Hid His.
  change ("/" ++ d) with (String "/" d).
  rewrite (str_split_app s d Hs), (str_split_slash_free d Hd).
  cbn [getitem lookup list_lookup mbind result_bind].
  by rewrite His, Hid.
Qed.

(** ** Properties of [add_to_history] *)

Lemma py_int_error (s : string) (e : exn) : py_int s = Raise e → e = ValueError.
Proof. unfold py_int. case_match; [done|]. by intros [= <-]. Qed.

Lemma getitem_error (parts : list string) (i : nat) (e : exn) :
  getitem parts i = Raise e → e = IndexError.
Proof. unfold getitem. case_match; [done|]. by intros [= <-]. Qed.

(** The pressures a blood-pressure field contributes to a history entry. *)
Lemma add_blood_pressure_string (vitals data_point : Reading) (s : string) :
  data_point !! "blood_pressure" = Some (PyStr s) →
  ∃ vitals',
    add_blood_pressure vitals data_point = (vitals', Ok tt)
    ∧ (vitals' !! "systolic", vitals' !! "diastolic")
      = match parse_blood_pressure (PyStr s) with
        | Ok (systolic, diastolic) => (Some (PyInt systolic), Some (PyInt diastolic))
        | Raise _ => (Some (PyInt 0), Some (PyInt 0))
        end
    ∧ ∀ k, k ≠ "systolic" → k ≠ "diastolic" → vitals' !! k = vitals !! k.
Proof.
  intros Hbp. unfold add_blood_pressure, parse_into, parse_blood_pressure.
  rewrite Hbp. cbn [split_slash mbind result_bind].
  destruct (getitem (str_split "/" s) 0) as [p0|e0] eqn:H0; cbn [mbind result_bind].
  - destruct (py_int p0) as [systolic|e] eqn:Hp0.
    + destruct (getitem (str_split "/" s) 1) as [p1|e1] eqn:H1;
        cbn [mbind result_bind].
      * destruct (py_int p1) as [diastolic|e] eqn:Hp1.
        -- eexists. split; [done|]. split; [by simplify_map_eq|].
           intros k Hs Hd. by rewrite !lookup_insert_ne.
        -- apply py_int_error in Hp1 as ->.
           eexists. split; [done|]. split; [by simplify_map_eq|].
           intros k Hs Hd. by rewrite !lookup_insert_ne.
      * apply getitem_error in H1 as ->.
        eexists. split; [done|]. split; [by simplify_map_eq|].
        intros k Hs Hd. by rewrite !lookup_insert_ne.
    + apply py_int_error in Hp0 as ->.
      eexists. split; [done|]. split; [by simplify_map_eq|].
      intros k Hs Hd. by rewrite !lookup_insert_ne.
  - apply getitem_error in H0 as ->.
    eexists. split; [done|]. split; [by simplify_map_eq|].
    intros k Hs Hd. by rewrite !lookup_insert_ne.
Qed.

Lemma numeric_vitals_lookup (data_point : Reading) (k : ScalarVital) :
  numeric_vitals data_point !! key k
  = Some (dict_get_default data_point (key k) (PyInt 0)).
Proof. by destruct k. Qed.

Lemma numeric_vitals_no_pressure (data_point : Reading) :
  numeric_vitals data_point !! "systolic" = None
  ∧ numeric_vitals data_point !! "diastolic" = None.
Proof. done. Qed.

Lemma add_to_history_ok (history : gmap string (list Reading)) (patient_id : string)
  (data_point vitals : Reading) :
  add_blood_pressure (numeric_vitals data_point) data_point = (vitals, Ok tt) →
  ∃ history',
    add_to_history history patient_id data_point = (history', Ok tt)
    ∧ history' !! patient_id
      = Some (default [] (history !! patient_id) ++ [vitals])%list
    ∧ ∀ other, other ≠ patient_id → history' !! other = history !! other.
Proof.
  intros Hv. unfold add_to_history. rewrite Hv.
  eexists. split; [done|]. split.
  - rewrite lookup_insert_eq. destruct (history !! patient_id) as [h|] eqn:Hh.
    + by rewrite Hh.
    + by rewrite lookup_insert_eq.
  - intros other Hne. rewrite lookup_insert_ne by done.
    destruct (history !! patient_id); [done|]. by rewrite lookup_insert_ne.
Qed.

(** X10.  When the data point's blood pressure is absent or a string,
    [add_to_history] succeeds and appends exactly one entry at the end of
    that patient's history, leaving every other patient's history as it
    was.  The entry holds the four numeric vitals, each defaulting to 0
    only when its key is absent from the data point. *)
Theorem add_to_history_appends_one_entry (history : gmap string (list Reading))
  (patient_id : string) (data_point : Reading) :
  blood_pressure_ok data_point = true →
  ∃ history' entry,
    add_to_history history patient_id data_point = (history', Ok tt)
    ∧ history' !! patient_id
      = Some (default [] (history !! patient_id) ++ [entry])%list
    ∧ (∀ other, other ≠ patient_id → history' !! other = history !! other)
    ∧ (∀ k, entry !! key k = Some (dict_get_default data_point (key k) (PyInt 0))).
Proof.
  unfold blood_pressure_ok.
  destruct (data_point !! "blood_pressure") as [[| | | |s| |]|] eqn:Hbp; try done;
    intros _.
  - destruct (add_blood_pressure_string (numeric_vitals data_point) _ _ Hbp)
      as (vitals & Hv & _ & Hother).
    destruct (add_to_history_ok history patient_id _ _ Hv) as (h' & Hh & Hp & Ho).
    exists h', vitals. split_and!; try done.
    intros k. rewrite Hother by (by destruct k). apply numeric_vitals_lookup.
  - assert (Hv : add_blood_pressure (numeric_vitals data_point) data_point
                 = (numeric_vitals data_point, Ok tt)).
    { unfold add_blood_pressure. by rewrite Hbp. }
    destruct (add_to_history_ok history patient_id _ _ Hv) as (h' & Hh & Hp & Ho).
    exists h', (numeric_vitals data_point). split_and!; try done.
    apply numeric_vitals_lookup.
Qed.

Lemma add_to_history_appends_one_entry_witness :
  ∃ history' entry,
    add_to_history ∅ "patient-1" (reading_of [("temperature", PyNone)])
    = (history', Ok tt)
    ∧ history' !! "patient-1" = Some (default [] ((∅ : gmap string (list Reading)) !! "patient-1") ++ [entry])%list
    ∧ (∀ other, other ≠ "patient-1" → history' !! other = (∅ : gmap string (list Reading)) !! other)
    ∧ (∀ k, entry !! key k
            = Some (dict_get_default (reading_of [("temperature", PyNone)]) (key k)
                      (PyInt 0))).
Proof.
  apply (add_to_history_appends_one_entry ∅ "patient-1"
           (reading_of [("temperature", PyNone)])).
  reflexivity.
Defined.

(** X11.  For a blood-pressure string, the entry [add_to_history] appends
    records the two integers the string parses to, the same ones the
    threshold detector reads; when the string does not parse, both
    pressures are recorded as 0, also when its first part alone is a
    valid integer. *)
Theorem add_to_history_pressures (history : gmap string (list Reading))
  (patient_id : string) (data_point : Reading) (s : string) :
  data_point !! "blood_pressure" = Some (PyStr s) →
  ∃ history' entry,
    add_to_history history patient_id data_point = (history', Ok tt)
    ∧ history' !! patient_id
      = Some (default [] (history !! patient_id) ++ [entry])%list
    ∧ (entry !! "systolic", entry !! "diastolic")
      = match parse_blood_pressure (PyStr s) with
        | Ok (systolic, diastolic) => (Some (PyInt systolic), Some (PyInt diastolic))
        | Raise _ => (Some (PyInt 0), Some (PyInt 0))
        end.
Proof.
  intros Hbp.
  destruct (add_blood_pressure_string (numeric_vitals data_point) _ _ Hbp)
    as (vitals & Hv & Hpress & _).
  destruct (add_to_history_ok history patient_id _ _ Hv) as (h' & Hh & Hp & _).
  by exists h', vitals.
Qed.

Lemma add_to_history_pressures_witness :
  ∃ history' entry,
    add_to_history ∅ "patient-1" (reading_of [("blood_pressure", PyStr "120/x")])
    = (history', Ok tt)
    ∧ history' !! "patient-1" = Some (default [] ((∅ : gmap string (list Reading)) !! "patient-1") ++ [entry])%list
    ∧ (entry !! "systolic", entry !! "diastolic")
      = match parse_blood_pressure (PyStr "120/x") with
        | Ok (systolic, diastolic) => (Some (PyInt systolic), Some (PyInt diastolic))
        | Raise _ => (Some (PyInt 0), Some (PyInt 0))
        end.
Proof.
  apply (add_to_history_pressures ∅ "patient-1"
           (reading_of [("blood_pressure", PyStr "120/x")]) "120/x").
  reflexivity.
Defined.

(** X12.  When the data point's blood pressure is present and not a string,
    [add_to_history] raises [AttributeError] and appends no entry, yet the
    patient is registered: a patient seen for the first time is left with
    an empty history. *)
Theorem add_to_history_failure_registers_patient (history : gmap string (list Reading))
  (patient_id : string) (data_point : Reading) :
  blood_pressure_ok data_point = false →
  ∃ history',
    add_to_history history patient_id data_point = (history', Raise AttributeError)
    ∧ history' !! patient_id = Some (default [] (history !! patient_id))
    ∧ (∀ other, other ≠ patient_id → history' !! other = history !! other).
Proof.
  unfold blood_pressure_ok, add_to_history, add_blood_pressure, parse_into.
  destruct (data_point !! "blood_pressure") as [[| | | |s| |]|]; try done; intros _;
    cbn [split_slash]; (eexists; split; [done|]; split;
    [ destruct (history !! patient_id) as [h|] eqn:Hh;
        [by rewrite Hh | by rewrite lookup_insert_eq]
    | intros other Hne; destruct (history !! patient_id); [done|];
        by rewrite lookup_insert_ne ]).
Qed.

Lemma add_to_history_failure_registers_patient_witness :
  ∃ history',
    add_to_history ∅ "patient-1" (reading_of [("blood_pressure", PyNone)])
    = (history', Raise AttributeError)
    ∧ history' !! "patient-1" = Some (default [] ((∅ : gmap string (list Reading)) !! "patient-1"))
    ∧ (∀ other, other ≠ "patient-1" → history' !! other = (∅ : gmap string (list Reading)) !! other).
Proof.
  apply (add_to_history_failure_registers_patient ∅ "patient-1"
           (reading_of [("blood_pressure", PyNone)])).
  reflexivity.
Defined.

(** ** Further properties of the alert manager *)

(** X13.  For a limit of at least 1, [get_patient_alerts] returns the last
    [limit] alerts of the patient's history in arrival order: a suffix of
    the history of length [min(limit, len(history))], the whole history
    when it has at most [limit] alerts, and the empty list for a patient
    without an entry. *)
Theorem recent_alerts_for_positive_limit (self : Manager) (patient_id : string)
  (limit : Z) :
  0 < limit →
  get_patient_alerts self patient_id limit
  = last_n (Z.to_nat limit) (default [] (alert_history self !! patient_id))
  ∧ length (get_patient_alerts self patient_id limit)
    = Nat.min (Z.to_nat limit) (length (default [] (alert_history self !! patient_id)))
  ∧ (∃ older,
       default [] (alert_history self !! patient_id)
       = (older ++ get_patient_alerts self patient_id limit)%list)
  ∧ (alert_history self !! patient_id = None →
     get_patient_alerts self patient_id limit = []).
Proof.
  intros Hlimit. rewrite get_patient_alerts_positive_limit by done.
  unfold last_n. split_and!.
  - done.
  - rewrite length_drop. lia.
  - eexists. by rewrite take_drop.
  - by intros ->.
Qed.

Lemma recent_alerts_for_positive_limit_witness :
  get_patient_alerts three_records "patient-1" 1
  = last_n (Z.to_nat 1) (default [] (alert_history three_records !! "patient-1")).
Proof.
  apply (recent_alerts_for_positive_limit three_records "patient-1" 1). lia.
Defined.

(** X14.  For a negative limit, [get_patient_alerts] drops the oldest
    [-limit] alerts and returns all the later ones (none when the history
    has no more than [-limit] alerts): the slice [[-limit:]] then starts at
    a positive index. *)
Theorem recent_alerts_for_negative_limit (self : Manager) (patient_id : string)
  (limit : Z) :
  limit < 0 →
  get_patient_alerts self patient_id limit
  = drop (Z.to_nat (- limit)) (default [] (alert_history self !! patient_id)).
Proof.
  intros Hlimit. unfold get_patient_alerts.
  destruct (alert_history self !! patient_id) as [alerts|]; [|simpl; by rewrite drop_nil].
  simpl. unfold slice_from.
  destruct (Z.ltb_spec (- limit) 0) as [|_]; [lia|].
  destruct (Z.le_ge_cases (- limit) (Z.of_nat (length alerts))) as [Hle|Hge].
  - by rewrite Z.min_l.
  - rewrite Z.min_r by lia. rewrite Nat2Z.id.
    rewrite !drop_ge; [done|lia|lia].
Qed.

Lemma recent_alerts_for_negative_limit_witness :
  get_patient_alerts three_records "patient-1" (-1)
  = drop (Z.to_nat (- -1)) (default [] (alert_history three_records !! "patient-1")).
Proof.
  apply (recent_alerts_for_negative_limit three_records "patient-1" (-1)). lia.
Defined.

(** X15.  A call of [process_anomalies] with a non-empty list hands the
    logger exactly one message, through the method that goes with the
    overall level ([info] for LOW, [warning] for MEDIUM, [error] for HIGH,
    [critical] for CRITICAL): the chain of level tests never falls
    through. *)
Theorem every_alert_is_logged_once (self : Manager) (patient_id timestamp : string)
  (vitals : Reading) (a : Finding) (rest : list Finding) :
  logger (process_anomalies self patient_id timestamp vitals (a :: rest))
  = (logger self
     ++ [log_method (max_level (a :: rest))
           (format_alert_message patient_id timestamp vitals (a :: rest)
              (level_name (max_level (a :: rest))))])%list.
Proof.
  unfold process_anomalies. cbn [logger]. rewrite overall_alert_level_max.
  unfold log_alert. by destruct (max_level (a :: rest)).
Qed.

Lemma total_alerts_insert (history : gmap string (list Alert)) (patient_id : string)
  (alerts : list Alert) (log : list LogCall) :
  (total_alerts (mkManager (<[patient_id := alerts]> history) log)
   + length (default [] (history !! patient_id)))%nat
  = (total_alerts (mkManager history log) + length alerts)%nat.
Proof.
  unfold total_alerts. cbn [alert_history].
  assert (Hcomm : ∀ (m : gmap string (list Alert)) (j1 j2 : string)
            (z1 z2 : list Alert) (y : nat),
            j1 ≠ j2 → m !! j1 = Some z1 → m !! j2 = Some z2 →
            (length z1 + (length z2 + y))%nat = (length z2 + (length z1 + y))%nat).
  { intros. lia. }
  destruct (history !! patient_id) as [old|] eqn:Hold.
  - rewrite <- insert_delete_eq.
    rewrite map_fold_insert_L;
      [|apply Hcomm|by rewrite lookup_delete_eq].
    rewrite (map_fold_delete_L _ _ patient_id old history);
      [|apply Hcomm|done].
    simpl. lia.
  - rewrite map_fold_insert_L; [|apply Hcomm|done]. simpl. lia.
Qed.

Lemma process_anomalies_history (self : Manager) (patient_id timestamp : string)
  (vitals : Reading) (a : Finding) (rest : list Finding) :
  alert_history (process_anomalies self patient_id timestamp vitals (a :: rest))
  = <[patient_id :=
        (default [] (alert_history self !! patient_id)
         ++ [mkAlert timestamp (overall_alert_level (a :: rest)) (a :: rest) vitals])%list]>
      (alert_history self).
Proof.
  unfold process_anomalies. cbn [alert_history].
  destruct (alert_history self !! patient_id) as [old|] eqn:Hold.
  - by rewrite Hold.
  - by rewrite lookup_insert_eq, insert_insert_eq.
Qed.

Lemma total_alerts_process_anomalies (self : Manager) (patient_id timestamp : string)
  (vitals : Reading) (a : Finding) (rest : list Finding) :
  total_alerts (process_anomalies self patient_id timestamp vitals (a :: rest))
  = S (total_alerts self).
Proof.
  pose proof (total_alerts_insert (alert_history self) patient_id
    (default [] (alert_history self !! patient_id)
     ++ [mkAlert timestamp (overall_alert_level (a :: rest)) (a :: rest) vitals])
    (logger self)) as H.
  unfold total_alerts in *. rewrite process_anomalies_history.
  cbn [alert_history] in H. rewrite length_app in H. simpl in H. lia.
Qed.

Lemma process_call_counts (self : Manager) (c : Call) :
  total_alerts (process_call self c)
  = (total_alerts self + length (alert_of c))%nat
  ∧ length (logger (process_call self c))
    = (length (logger self) + length (alert_of c))%nat.
Proof.
  unfold process_call, alert_of. destruct (call_anomalies c) as [|a rest].
  - simpl. lia.
  - rewrite total_alerts_process_anomalies.
    unfold process_anomalies. cbn [logger]. rewrite overall_alert_level_max.
    unfold log_alert. destruct (max_level (a :: rest)); simpl;
      rewrite length_app; simpl; lia.
Qed.

Lemma process_calls_counts (calls : list Call) (self : Manager) :
  total_alerts (process_calls self calls)
  = (total_alerts self + length (flat_map alert_of calls))%nat
  ∧ length (logger (process_calls self calls))
    = (length (logger self) + length (flat_map alert_of calls))%nat.
Proof.
  revert self. induction calls as [|c calls IH]; intros self.
  - simpl. lia.
  - change (process_calls self (c :: calls))
      with (process_calls (process_call self c) calls).
    destruct (IH (process_call self c)) as [-> ->].
    destruct (process_call_counts self c) as [-> ->].
    simpl. rewrite length_app. lia.
Qed.

(** X16.  The number of alerts the export reports (the sum of the lengths
    of all histories) grows by exactly one with every call of
    [process_anomalies] on a non-empty list; for a manager fed any sequence
    of calls from a fresh start it equals the number of calls with a
    non-empty list, and the number of messages handed to the logger. *)
Theorem exported_count_matches_calls :
  (∀ self patient_id timestamp vitals a rest,
     total_alerts (process_anomalies self patient_id timestamp vitals (a :: rest))
     = S (total_alerts self))
  ∧ (∀ calls,
       total_alerts (process_calls new_manager calls)
       = length (List.filter (λ c, match call_anomalies c with
                                    | [] => false
                                    | _ :: _ => true
                                    end) calls)
       ∧ total_alerts (process_calls new_manager calls)
         = length (logger (process_calls new_manager calls))).
Proof.
  split; [apply total_alerts_process_anomalies|].
  intros calls. destruct (process_calls_counts calls new_manager) as [Ht Hl].
  rewrite Ht, Hl. change (total_alerts new_manager) with 0%nat.
  change (length (logger new_manager)) with 0%nat.
  split; [|done]. rewrite Nat.add_0_l.
  clear Ht Hl. induction calls as [|c calls IH]; [done|].
  cbn [flat_map List.filter]. rewrite length_app, IH. unfold alert_of.
  by destruct (call_anomalies c).
Qed.

Lemma returned_findings_crossing (vital_ranges : VitalRanges) (patient_data : Reading)
  (l : list Finding) :
  check_vital_thresholds vital_ranges patient_data = Ok l →
  Forall (λ f, crossing f = true) l.
Proof.
  intros (hr & temp & ox & rr & bp & Hhr & Htemp & Hox & Hrr & Hbp & ->)
    %check_vital_thresholds_inv.
  rewrite !Forall_app.
  eauto 10 using scalar_findings_crossing, blood_pressure_findings_crossing.
Qed.

Lemma crossing_severity (f : Finding) :
  crossing f = true → severity f = "medium" ∨ severity f = "high".
Proof.
  unfold crossing. destruct (as_num (value f)); [|done]. intros H.
  repeat (apply orb_true_iff in H as [H|H]);
    apply andb_true_iff in H as [_ Hs]; apply String.eqb_eq in Hs; auto.
Qed.

Lemma max_level_of_detector_severities (l : list Finding) :
  Forall (λ f, severity f = "medium" ∨ severity f = "high") l →
  l ≠ [] →
  max_level l = if existsb (λ f, String.eqb (severity f) "high") l then HIGH else MEDIUM.
Proof.
  induction 1 as [|f l Hf Hl IH]; [done|]. intros _.
  change (max_level (f :: l))
    with (level_max (severity_to_level (severity f)) (max_level l)).
  destruct l as [|g l].
  - cbn [existsb]. destruct Hf as [-> | ->]; reflexivity.
  - rewrite IH by done. cbn [existsb].
    destruct Hf as [-> | ->];
      by destruct (existsb _ l), (String.eqb (severity g) "high").
Qed.

(** X17.  An alert built from the findings of [check_vital_thresholds]
    never has level LOW or CRITICAL: for a non-empty list of such findings
    the overall level is HIGH when some finding has severity high (a
    critical-band finding), and MEDIUM otherwise. *)
Theorem detector_alerts_are_medium_or_high (vital_ranges : VitalRanges)
  (patient_data : Reading) (l : list Finding) :
  check_vital_thresholds vital_ranges patient_data = Ok l →
  l ≠ [] →
  overall_alert_level l
  = if existsb (λ f, String.eqb (severity f) "high") l then "HIGH" else "MEDIUM".
Proof.
  intros Hl Hne. rewrite overall_alert_level_max.
  rewrite max_level_of_detector_severities; [by destruct (existsb _ _)| |done].
  eapply Forall_impl; [by eapply returned_findings_crossing|].
  apply crossing_severity.
Qed.

Lemma detector_alerts_are_medium_or_high_witness :
  overall_alert_level
    [mkFinding "oxygen_saturation" (PyInt 93) "below normal" (NInt 95) "medium"]
  = "MEDIUM".
Proof.
  apply (detector_alerts_are_medium_or_high VITAL_RANGES
           (reading_of [("oxygen_saturation", PyInt 93)])).
  - vm_compute. reflexivity.
  - discriminate.
Defined.

Lemma max_level_app (l l' : list Finding) :
  max_level (l ++ l') = level_max (max_level l) (max_level l').
Proof.
  unfold max_level. induction l as [|f l IH]; simpl.
  - by rewrite level_max_LOW_l.
  - by rewrite IH, level_max_assoc.
Qed.

(** X18.  The overall level of two lists of anomalies put together is the
    higher of their two levels: adding anomalies to a list never lowers
    its level. *)
Theorem alert_level_of_concatenation (l l' : list Finding) :
  overall_alert_level (l ++ l')
  = level_name (level_max (max_level l) (max_level l'))
  ∧ ALERT_LEVELS_get (overall_alert_level l)
    ≤ ALERT_LEVELS_get (overall_alert_level (l ++ l'))
  ∧ ALERT_LEVELS_get (overall_alert_level l')
    ≤ ALERT_LEVELS_get (overall_alert_level (l ++ l')).
Proof.
  rewrite !overall_alert_level_max, max_level_app, !ALERT_LEVELS_get_level_name.
  rewrite level_max_rank. split_and!; [done|lia|lia].
Qed.

Lemma crossing_reason (f : Finding) :
  crossing f = true →
  reason f = "below normal" ∨ reason f = "above normal"
  ∨ reason f = "critically low" ∨ reason f = "critically high"
  ∨ reason f = "abnormal systolic-diastolic difference".
Proof.
  unfold crossing. destruct (as_num (value f)); [|done]. intros H.
  repeat (apply orb_true_iff in H as [H|H]);
    apply andb_true_iff in H as [[Hr _]%andb_true_iff _];
    apply String.eqb_eq in Hr; auto 6.
Qed.

(** X19.  In the alert message, the line of a finding of
    [check_vital_thresholds] is numbered by its position (from 1) and shows
    ["<"] for a below-normal finding, [">"] for an above-normal one, and
    ["!="] for every critically-low, critically-high and pulse-pressure
    finding, whose reasons contain neither "above" nor "below". *)
Theorem message_comparison_symbols (vital_ranges : VitalRanges)
  (patient_data : Reading) (l : list Finding) (i : nat) (f : Finding) :
  check_vital_thresholds vital_ranges patient_data = Ok l →
  l !! i = Some f →
  anomaly_lines l !! i
  = Some (mkLine (S i) (vital f) (reason f) (value f)
            (if String.eqb (reason f) "below normal" then "<"
             else if String.eqb (reason f) "above normal" then ">"
             else "!=")
            (threshold f)).
Proof.
  intros Hl Hi. unfold anomaly_lines. rewrite list_lookup_imap, Hi. simpl.
  do 2 f_equal.
  apply returned_findings_crossing in Hl.
  rewrite Forall_forall in Hl.
  destruct (crossing_reason f) as [->|[->|[->|[->| ->]]]]; try reflexivity.
  apply Hl. by eapply list_elem_of_lookup_2.
Qed.

Lemma message_comparison_symbols_witness :
  anomaly_lines
    [mkFinding "heart_rate" (PyInt 39) "below normal" (NInt 60) "medium";
     mkFinding "heart_rate" (PyInt 39) "critically low" (NInt 40) "high"] !! 1%nat
  = Some (mkLine 2 "heart_rate" "critically low" (PyInt 39) "!=" (NInt 40)).
Proof.
  apply (message_comparison_symbols VITAL_RANGES
           (reading_of [("heart_rate", PyInt 39)])
           [mkFinding "heart_rate" (PyInt 39) "below normal" (NInt 60) "medium";
            mkFinding "heart_rate" (PyInt 39) "critically low" (NInt 40) "high"]
           1 (mkFinding "heart_rate" (PyInt 39) "critically low" (NInt 40) "high"));
    vm_compute; reflexivity.
Defined.

(** ** Properties of the batch pipeline *)

Lemma well_typed_returns (vital_ranges : VitalRanges) (patient_data : Reading) :
  well_typed patient_data = true →
  ∃ l, check_vital_thresholds vital_ranges patient_data = Ok l.
Proof.
  unfold well_typed. cbn [forallb]. rewrite !andb_true_iff.
  intros [(Hhr & Htemp & Hox & Hrr & _) Hbp].
  rewrite check_vital_thresholds_blocks.
  destruct (scalar_findings_ok HeartRate vital_ranges _ Hhr) as [hr ->].
  destruct (scalar_findings_ok Temperature vital_ranges _ Htemp) as [temp ->].
  destruct (scalar_findings_ok OxygenSaturation vital_ranges _ Hox) as [ox ->].
  destruct (scalar_findings_ok RespiratoryRate vital_ranges _ Hrr) as [rr ->].
  destruct (blood_pressure_findings_ok vital_ranges _ Hbp) as [bp ->].
  by eexists.
Qed.

Lemma detect_record_ok (vital_ranges : VitalRanges) (results : list AnomalyResult)
  (record : Reading) (l : list Finding) :
  check_vital_thresholds vital_ranges record = Ok l →
  detect_record vital_ranges results record
  = Ok (results ++ results_of vital_ranges record)%list.
Proof.
  intros Hl. unfold detect_record, results_of. rewrite Hl. simpl.
  destruct l; [by rewrite app_nil_r|done].
Qed.

Lemma detect_records_ok (vital_ranges : VitalRanges) (patient_data : list Reading) :
  ∀ results,
    Forall (λ record, ∃ l, check_vital_thresholds vital_ranges record = Ok l)
      patient_data →
    detect_records vital_ranges patient_data results
    = Ok (results ++ flat_map (results_of vital_ranges) patient_data)%list.
Proof.
  induction patient_data as [|record rest IH]; intros results Hall.
  - simpl. by rewrite app_nil_r.
  - apply Forall_cons in Hall as [[l Hl] Hrest].
    cbn [detect_records flat_map]. rewrite (detect_record_ok _ _ _ _ Hl).
    cbn [mbind result_bind]. rewrite IH by done. by rewrite app_assoc.
Qed.

Lemma results_of_nonempty (vital_ranges : VitalRanges) (record : Reading) :
  Forall (λ r, ∃ l, check_vital_thresholds vital_ranges record = Ok l
                    ∧ res_anomalies r = l ∧ l ≠ []
                    ∧ res_vitals r = vitals_snapshot record)
    (results_of vital_ranges record).
Proof.
  unfold results_of.
  destruct (check_vital_thresholds vital_ranges record) as [[|a rest]|] eqn:Hl;
    repeat constructor.
  by exists (a :: rest).
Qed.

(** X20.  On a batch in which every record is well typed (scalar vitals
    falsy or numeric, blood pressure absent or a string),
    [detect_anomalies] returns, in input order, one result for each record
    that has at least one finding and none for the others: every result
    carries a non-empty list of findings, and there are at most as many
    results as records. *)
Theorem detect_anomalies_keeps_records_with_findings (vital_ranges : VitalRanges)
  (patient_data : list Reading) :
  Forall (λ record, well_typed record = true) patient_data →
  detect_anomalies vital_ranges patient_data
  = Ok (flat_map (results_of vital_ranges) patient_data)
  ∧ Forall (λ r, res_anomalies r ≠ [])
      (flat_map (results_of vital_ranges) patient_data)
  ∧ (length (flat_map (results_of vital_ranges) patient_data)
     ≤ length patient_data)%nat.
Proof.
  intros Hall. split_and!.
  - unfold detect_anomalies. rewrite detect_records_ok; [done|].
    eapply Forall_impl; [exact Hall|]. intros record. apply well_typed_returns.
  - clear Hall. induction patient_data as [|record rest IH]; [constructor|].
    cbn [flat_map]. rewrite Forall_app. split; [|done].
    eapply Forall_impl; [apply results_of_nonempty|].
    intros r (l & _ & -> & Hne & _). done.
  - clear Hall. induction patient_data as [|record rest IH]; [done|].
    cbn [flat_map]. rewrite length_app. unfold results_of at 1.
    destruct (check_vital_thresholds vital_ranges record) as [[|a l]|];
      simpl; lia.
Qed.

Lemma detect_anomalies_keeps_records_with_findings_witness :
  detect_anomalies VITAL_RANGES
    [reading_of [("heart_rate", PyInt 75)]; reading_of [("heart_rate", PyInt 110)]]
  = Ok (flat_map (results_of VITAL_RANGES)
          [reading_of [("heart_rate", PyInt 75)];
           reading_of [("heart_rate", PyInt 110)]]).
Proof.
  apply (detect_anomalies_keeps_records_with_findings VITAL_RANGES
           [reading_of [("heart_rate", PyInt 75)];
            reading_of [("heart_rate", PyInt 110)]]).
  repeat constructor.
Defined.

(** X21.  [detect_anomalies] has no guard around the detector: the first
    record on which [check_vital_thresholds] raises makes the whole call
    raise that exception, and the results gathered from the records before
    it are lost. *)
Theorem detect_anomalies_aborts_on_first_failure (vital_ranges : VitalRanges)
  (before after : list Reading) (bad : Reading) (e : exn) :
  Forall (λ record, well_typed record = true) before →
  check_vital_thresholds vital_ranges bad = Raise e →
  detect_anomalies vital_ranges (before ++ bad :: after) = Raise e.
Proof.
  intros Hbefore Hbad. unfold detect_anomalies. generalize (@nil AnomalyResult).
  induction Hbefore as [|record before Hrecord _ IH]; intros results.
  - cbn [app detect_records]. unfold detect_record. by rewrite Hbad.
  - destruct (well_typed_returns vital_ranges record Hrecord) as [l Hl].
    cbn [app detect_records]. rewrite (detect_record_ok _ _ _ _ Hl).
    cbn [mbind result_bind]. apply IH.
Qed.

Lemma detect_anomalies_aborts_on_first_failure_witness :
  detect_anomalies VITAL_RANGES
    ([reading_of [("heart_rate", PyInt 110)]]
     ++ reading_of [("blood_pressure", PyNone)]
        :: [reading_of [("heart_rate", PyInt 39)]])
  = Raise AttributeError.
Proof.
  apply (detect_anomalies_aborts_on_first_failure VITAL_RANGES
           [reading_of [("heart_rate", PyInt 110)]]
           [reading_of [("heart_rate", PyInt 39)]]
           (reading_of [("blood_pressure", PyNone)]) AttributeError).
  - repeat constructor.
  - vm_compute. reflexivity.
Defined.

Lemma detect_records_inv (vital_ranges : VitalRanges) (patient_data : list Reading) :
  ∀ results final,
    detect_records vital_ranges patient_data results = Ok final →
    final = (results ++ flat_map (results_of vital_ranges) patient_data)%list.
Proof.
  induction patient_data as [|record rest IH]; intros results final.
  - simpl. intros [= <-]. by rewrite app_nil_r.
  - cbn [detect_records flat_map]. unfold detect_record at 1.
    destruct (check_vital_thresholds vital_ranges record) as [l|] eqn:Hl; [|done].
    cbn [mbind result_bind].
    assert (Hstep : (match l with
                     | [] => Ok results
                     | _ :: _ =>
                         Ok (results ++ [mkResult (dict_get record "patient_id")
                                           (dict_get record "timestamp")
                                           (vitals_snapshot record) l])%list
                     end)
                    = Ok (results ++ results_of vital_ranges record)%list).
    { unfold results_of. rewrite Hl. destruct l; [by rewrite app_nil_r|done]. }
    rewrite Hstep. cbn [mbind result_bind]. intros H%IH. by rewrite H, app_assoc.
Qed.

Lemma detector_level (vital_ranges : VitalRanges) (patient_data : Reading)
  (l : list Finding) :
  check_vital_thresholds vital_ranges patient_data = Ok l → l ≠ [] →
  overall_alert_level l = "MEDIUM" ∨ overall_alert_level l = "HIGH".
Proof.
  intros Hl Hne. rewrite overall_alert_level_max.
  rewrite max_level_of_detector_severities; [destruct (existsb _ _); auto| |done].
  eapply Forall_impl; [by eapply returned_findings_crossing|].
  apply crossing_severity.
Qed.

Lemma recorded_Forall (P : Alert → Prop) (patient_id : string) (calls : list Call) :
  Forall (λ c, Forall P (alert_of c)) calls → Forall P (recorded patient_id calls).
Proof.
  induction 1 as [|c calls Hc _ IH]; [constructor|].
  simpl. destruct (String.eqb _ _); [|done]. rewrite Forall_app. done.
Qed.

(** X22.  The batch pipeline end to end: when [detect_anomalies] returns
    its results and their patient ids and timestamps are strings,
    [generate_alerts] records exactly one alert per result (as many alerts,
    and as many log messages, as there are results), and every alert in
    every patient's history has level MEDIUM or HIGH and carries a
    non-empty list of findings. *)
Theorem pipeline_records_one_alert_per_result (vital_ranges : VitalRanges)
  (patient_data : list Reading) (results : list AnomalyResult) (calls : list Call) :
  detect_anomalies vital_ranges patient_data = Ok results →
  mapM call_of_result results = Some calls →
  total_alerts (generate_alerts calls) = length results
  ∧ length (logger (generate_alerts calls)) = length results
  ∧ (∀ patient_id alerts,
       alert_history (generate_alerts calls) !! patient_id = Some alerts →
       Forall (λ a, (level a = "MEDIUM" ∨ level a = "HIGH") ∧ anomalies a ≠ [])
         alerts).
Proof.
  intros Hdetect Hcalls. unfold detect_anomalies in Hdetect.
  apply detect_records_inv in Hdetect. simpl in Hdetect. subst results.
  apply mapM_Some in Hcalls.
  assert (Hall : Forall (λ c, ∃ record l,
                   check_vital_thresholds vital_ranges record = Ok l
                   ∧ call_anomalies c = l ∧ l ≠ []) calls).
  { assert (Hres : Forall (λ r, ∃ record l,
                     check_vital_thresholds vital_ranges record = Ok l
                     ∧ res_anomalies r = l ∧ l ≠ [])
                     (flat_map (results_of vital_ranges) patient_data)).
    { clear Hcalls. induction patient_data as [|record rest IH]; [constructor|].
      cbn [flat_map]. rewrite Forall_app. split; [|done].
      eapply Forall_impl; [apply results_of_nonempty|].
      intros r (l & Hl & Hr & Hne & _). by exists record, l. }
    revert Hres. induction Hcalls as [|r c rs cs Hrc _ IH]; [constructor|].
    intros [Hr Hrs]%Forall_cons. constructor; [|by apply IH].
    destruct Hr as (record & l & Hl & Hr & Hne). exists record, l.
    unfold call_of_result in Hrc.
    destruct (res_patient_id r), (res_timestamp r); try done.
    by injection Hrc as <-. }
  assert (Hone : ∀ c, c ∈ calls → ∃ a, alert_of c = [a]
                   ∧ (level a = "MEDIUM" ∨ level a = "HIGH") ∧ anomalies a ≠ []).
  { intros c Hc. rewrite Forall_forall in Hall.
    destruct (Hall c Hc) as (record & l & Hl & Hc' & Hne).
    unfold alert_of. rewrite Hc'. destruct l as [|a rest]; [done|].
    eexists. split; [done|]. split; [|done]. simpl.
    by eapply detector_level. }
  assert (Hlen : length (flat_map alert_of calls) = length calls).
  { clear Hall Hcalls. induction calls as [|c calls IH]; [done|].
    cbn [flat_map]. rewrite length_app.
    destruct (Hone c) as (a & -> & _); [by left|].
    rewrite IH; [done|]. intros c' Hc'. apply Hone. by right. }
  apply Forall2_length in Hcalls.
  unfold generate_alerts.
  destruct (process_calls_counts calls new_manager) as [-> ->].
  change (total_alerts new_manager) with 0%nat.
  change (length (logger new_manager)) with 0%nat.
  split_and!; [lia|lia|].
  intros pid alerts Hpid.
  pose proof (process_calls_history calls new_manager pid) as Hh.
  rewrite Hpid in Hh. simpl in Hh. rewrite lookup_empty in Hh. simpl in Hh.
  subst alerts. apply recorded_Forall. rewrite Forall_forall.
  intros c Hc. destruct (Hone c Hc) as (a & -> & Ha). by constructor.
Qed.

Lemma pipeline_records_one_alert_per_result_witness :
  total_alerts
    (generate_alerts
       [mkCall "patient-1" "t1" (vitals_snapshot (reading_of [("heart_rate", PyInt 110)]))
          [sample_finding]])
  = length
      [mkResult (PyStr "patient-1") (PyStr "t1")
         (vitals_snapshot (reading_of [("heart_rate", PyInt 110)])) [sample_finding]].
Proof.
  refine (proj1 (pipeline_records_one_alert_per_result VITAL_RANGES
    [<["timestamp" := PyStr "t1"]>
       (<["patient_id" := PyStr "patient-1"]> (reading_of [("heart_rate", PyInt 110)]))]
    [mkResult (PyStr "patient-1") (PyStr "t1")
       (vitals_snapshot (reading_of [("heart_rate", PyInt 110)])) [sample_finding]]
    [mkCall "patient-1" "t1" (vitals_snapshot (reading_of [("heart_rate", PyInt 110)]))
       [sample_finding]]
    _ _)).
  - vm_compute. reflexivity.
  - reflexivity.
Defined.

(** X23.  A vital that is absent from the reading, or present with value
    [None], produces no finding for that kind, and an absent blood
    pressure produces no systolic, diastolic or pulse-pressure finding:
    there is no finding for a missing value. *)
Theorem absent_vital_yields_no_finding (vital_ranges : VitalRanges)
  (patient_data : Reading) (l : list Finding) :
  check_vital_thresholds vital_ranges patient_data = Ok l →
  (∀ k, patient_data !! key k = None ∨ patient_data !! key k = Some PyNone →
        findings_for (key k) l = [])
  ∧ (patient_data !! "blood_pressure" = None →
     List.filter blood_pressure_related l = []).
Proof.
  intros Hl. split.
  - intros k Hk. apply (findings_for_scalar k) in Hl.
    unfold scalar_findings, dict_get in Hl.
    destruct Hk as [Hk|Hk]; rewrite Hk in Hl; simpl in Hl; by injection Hl as <-.
  - intros Hbp.
    apply check_vital_thresholds_inv in Hl
      as (hr & temp & ox & rr & bp & Hhr & Htemp & Hox & Hrr & Hbpf & ->).
    unfold blood_pressure_findings in Hbpf. rewrite Hbp in Hbpf.
    injection Hbpf as <-.
    assert (Hnone : ∀ k fs, scalar_findings k vital_ranges patient_data = Ok fs →
              List.filter blood_pressure_related fs = []).
    { intros k fs H%scalar_findings_unrelated.
      induction H as [|f fs Hf _ IH]; [done|]. simpl. by rewrite Hf. }
    rewrite !List.filter_app.
    by rewrite (Hnone _ _ Hhr), (Hnone _ _ Htemp), (Hnone _ _ Hox), (Hnone _ _ Hrr).
Qed.

Lemma absent_vital_yields_no_finding_witness :
  findings_for (key Temperature)
    [mkFinding "heart_rate" (PyInt 110) "above normal" (NInt 100) "medium"]
  = [].
Proof.
  refine (proj1 (absent_vital_yields_no_finding VITAL_RANGES
                   (reading_of [("heart_rate", PyInt 110); ("temperature", PyNone)])
                   [mkFinding "heart_rate" (PyInt 110) "above normal" (NInt 100) "medium"]
                   _) Temperature _).
  - vm_compute. reflexivity.
  - right. reflexivity.
Defined.
